(** * hospital-middleware: staff authentication and tenant-scoped patient search

    A shallow embedding of the Go sources

      - internal/models     (Staff, Patient, PatientSearchQuery, requests)
      - internal/database   (FindStaffByUsername, CreateStaff, SearchPatients,
                             GetHospitalIDByName)
      - internal/services   (AuthenticateStaff, ValidateToken)
      - internal/api        (CreateStaffHandler, LoginStaffHandler,
                             SearchPatientHandler)

    Conventions.  Go [uint] values are [N] (no arithmetic is ever performed on
    them), Go strings are [string], [time.Time] is a number of nanoseconds
    since the Unix epoch and [time.Duration] a number of nanoseconds, both in
    [Z].  A Go [error] is a value of the inductive type [error] below, which
    keeps what [errors.Is] and [err.Error()] can observe.  A Go function
    returning [(T, error)] returns [Result T].

    What lives outside the repository is modelled as follows.
      - The relational store is a pair of row lists; a chain of GORM [Where]
        calls is a list of conditions that [Find] evaluates as a conjunction
        (GORM parenthesises a condition that contains OR before chaining it
        with AND).  SQL [LIKE] is implemented with its wildcards, by
        characters of UTF-8 text.
      - The JWT library is followed step by step ([ParseUnverified], key
        function, signature verification, claims validation); the compact
        serialisation itself is abstracted: a token string is seen through
        the library's decoder ([TokenString]).
      - HMAC, the signing-input encoder and the password hasher of pkg/utils
        are parameters (classes [JWTPrimitives] and [PasswordHasher]). *)

From Stdlib Require Import String Ascii List ZArith NArith Bool Lia Btauto.
From Stdlib Require Import Numbers.DecimalString.
Import ListNotations.

Local Open Scope list_scope.
Local Open Scope string_scope.

(* ================================================================== *)
(** * Errors and results *)

(** Package-level error values, compared by identity by [errors.Is]
    ([time_ParseError] stands for any [*time.ParseError]; the program only
    tests it against [nil]). *)
Inductive Sentinel : Type :=
| gorm_ErrRecordNotFound
| jwt_ErrTokenMalformed
| jwt_ErrTokenUnverifiable
| jwt_ErrTokenSignatureInvalid
| jwt_ErrTokenInvalidClaims
| jwt_ErrTokenExpired
| jwt_ErrTokenNotValidYet
| jwt_ErrInvalidKeyType
| jwt_ErrSignatureInvalid
| time_ParseError.

Definition Sentinel_eqb (a b : Sentinel) : bool :=
  match a, b with
  | gorm_ErrRecordNotFound, gorm_ErrRecordNotFound
  | jwt_ErrTokenMalformed, jwt_ErrTokenMalformed
  | jwt_ErrTokenUnverifiable, jwt_ErrTokenUnverifiable
  | jwt_ErrTokenSignatureInvalid, jwt_ErrTokenSignatureInvalid
  | jwt_ErrTokenInvalidClaims, jwt_ErrTokenInvalidClaims
  | jwt_ErrTokenExpired, jwt_ErrTokenExpired
  | jwt_ErrTokenNotValidYet, jwt_ErrTokenNotValidYet
  | jwt_ErrInvalidKeyType, jwt_ErrInvalidKeyType
  | jwt_ErrSignatureInvalid, jwt_ErrSignatureInvalid
  | time_ParseError, time_ParseError => true
  | _, _ => false
  end.

(** Go error values:
    - [sentinel s]: a package-level error variable;
    - [errorString m]: a fresh [errors.New(m)] or a [fmt.Errorf] without [%w];
    - [wrapError m e]: [fmt.Errorf(m ++ ": %w", e)];
    - [joinedError a b]: the JWT library's error that wraps several errors
      (more than two are joined by nesting). *)
Inductive error : Type :=
| sentinel (s : Sentinel)
| errorString (msg : string)
| wrapError (msg : string) (inner : error)
| joinedError (a b : error).

Module errors.

(** [errors.Is(err, target)] for a sentinel [target]: walks the chain of
    wrapped errors.  A fresh [errorString] is never a sentinel. *)
Fixpoint Is (err : error) (target : Sentinel) : bool :=
  match err with
  | sentinel s => Sentinel_eqb s target
  | errorString _ => false
  | wrapError _ inner => Is inner target
  | joinedError a b => Is a target || Is b target
  end.

Definition New (msg : string) : error := errorString msg.

End errors.

Definition Sentinel_text (s : Sentinel) : string :=
  match s with
  | gorm_ErrRecordNotFound => "record not found"
  | jwt_ErrTokenMalformed => "token is malformed"
  | jwt_ErrTokenUnverifiable => "token is unverifiable"
  | jwt_ErrTokenSignatureInvalid => "token signature is invalid"
  | jwt_ErrTokenInvalidClaims => "token has invalid claims"
  | jwt_ErrTokenExpired => "token is expired"
  | jwt_ErrTokenNotValidYet => "token is not valid yet"
  | jwt_ErrInvalidKeyType => "key is of invalid type"
  | jwt_ErrSignatureInvalid => "signature is invalid"
  | time_ParseError => "parsing time: cannot parse"
  end.

(** [err.Error()]. *)
Fixpoint Error (err : error) : string :=
  match err with
  | sentinel s => Sentinel_text s
  | errorString m => m
  | wrapError m inner => m ++ ": " ++ Error inner
  | joinedError a b => Error a ++ ": " ++ Error b
  end.

Inductive Result (A : Type) : Type :=
| Ok (a : A)
| Err (e : error).
Arguments Ok {A} a.
Arguments Err {A} e.

Definition bind {A B : Type} (r : Result A) (k : A -> Result B) : Result B :=
  match r with
  | Ok a => k a
  | Err e => Err e
  end.

Notation "'let?' x ':=' r 'in' k" := (bind r (fun x => k))
  (at level 10, x pattern, r at level 100, k at level 200).

(* ================================================================== *)
(** * Package time: the parts the repository uses *)

Module time.

(** [time.Time]: nanoseconds since 1970-01-01T00:00:00Z. *)
Definition Time : Type := Z.
(** [time.Duration]: nanoseconds. *)
Definition Duration : Type := Z.

Definition Second : Duration := 1000000000%Z.
Definition Hour : Duration := (3600 * Second)%Z.

Definition Add (t : Time) (d : Duration) : Time := (t + d)%Z.
Definition Before (t u : Time) : bool := (t <? u)%Z.

(** [t.Truncate(time.Second)]: round down to a whole second. *)
Definition Truncate (t : Time) (d : Duration) : Time :=
  (t - t mod d)%Z.

Definition isLeap (year : Z) : bool :=
  ((year mod 4 =? 0) && (negb (year mod 100 =? 0) || (year mod 400 =? 0)))%Z.

(** Days before the first of each month in a non-leap year. *)
Definition daysBefore (month : Z) : Z :=
  match month with
  | 1 => 0 | 2 => 31 | 3 => 59 | 4 => 90 | 5 => 120 | 6 => 151
  | 7 => 181 | 8 => 212 | 9 => 243 | 10 => 273 | 11 => 304 | 12 => 334
  | _ => 365
  end%Z.

Definition daysIn (month year : Z) : Z :=
  if ((month =? 2) && isLeap year)%Z then 29%Z
  else (daysBefore (month + 1) - daysBefore month)%Z.

(** Leap days in the years [1..year]. *)
Definition leapsThrough (year : Z) : Z :=
  (year / 4 - year / 100 + year / 400)%Z.

(** Days from 1970-01-01 to the given civil date. *)
Definition daysSinceEpoch (year month day : Z) : Z :=
  (365 * (year - 1970)
   + (leapsThrough (year - 1) - leapsThrough 1969)
   + daysBefore month
   + (if ((3 <=? month) && isLeap year)%Z then 1 else 0)
   + (day - 1))%Z.

(** [time.Date(year, month, day, 0, 0, 0, 0, time.UTC)]. *)
Definition Date (year month day : Z) : Time :=
  (daysSinceEpoch year month day * 86400 * Second)%Z.

(** The zero [time.Time]: January 1 of year 1, 00:00:00 UTC. *)
Definition zero : Time := Date 1 1 1.
Definition IsZero (t : Time) : bool := Z.eqb t zero.

Definition isDigit (c : ascii) : bool :=
  let n := nat_of_ascii c in (48 <=? n)%nat && (n <=? 57)%nat.

Definition digit (c : ascii) : Z := (Z.of_nat (nat_of_ascii c) - 48)%Z.

(** [getnum(s, fixed = true)]: exactly two leading digits. *)
Definition getnum2 (s : string) : option (Z * string) :=
  match s with
  | String a (String b rest) =>
      if isDigit a && isDigit b
      then Some ((digit a * 10 + digit b)%Z, rest)
      else None
  | _ => None
  end.

(** The [stdLongYear] chunk: four bytes, all of them digits. *)
Definition getyear (s : string) : option (Z * string) :=
  match s with
  | String a (String b (String c (String d rest))) =>
      if isDigit a && isDigit b && isDigit c && isDigit d
      then Some ((digit a * 1000 + digit b * 100 + digit c * 10 + digit d)%Z,
                 rest)
      else None
  | _ => None
  end.

(** [skip(value, "-")]. *)
Definition skipDash (s : string) : option string :=
  match s with
  | String c rest => if Ascii.eqb c "-" then Some rest else None
  | EmptyString => None
  end.

(** [time.Parse("2006-01-02", value)]: a four-digit year, a two-digit month
    in 1..12, a two-digit day valid for that month and year, separated by
    dashes, and nothing after them. *)
Definition Parse_2006_01_02 (value : string) : Result Time :=
  match getyear value with
  | None => Err (sentinel time_ParseError)
  | Some (year, v1) =>
  match skipDash v1 with
  | None => Err (sentinel time_ParseError)
  | Some v2 =>
  match getnum2 v2 with
  | None => Err (sentinel time_ParseError)
  | Some (month, v3) =>
  if ((month <=? 0) || (12 <? month))%Z then Err (sentinel time_ParseError)
  else
  match skipDash v3 with
  | None => Err (sentinel time_ParseError)
  | Some v4 =>
  match getnum2 v4 with
  | None => Err (sentinel time_ParseError)
  | Some (day, v5) =>
  match v5 with
  | String _ _ => Err (sentinel time_ParseError)   (* extra text *)
  | EmptyString =>
      if ((day <? 1) || (daysIn month year <? day))%Z
      then Err (sentinel time_ParseError)          (* day out of range *)
      else Ok (Date year month day)
  end end end end end end.

End time.


(* ================================================================== *)
(** * internal/models *)

(** [models.Staff]. *)
Module Staff.
Record t : Type := mk {
  ID : N;
  Username : string;
  PasswordHash : string;
  HospitalID : N;
  HospitalName : string;
  CreatedAt : time.Time;
  UpdatedAt : time.Time
}.

(** The assignment [staff.PasswordHash = h]. *)
Definition set_PasswordHash (s : t) (h : string) : t :=
  mk (ID s) (Username s) h (HospitalID s) (HospitalName s)
     (CreatedAt s) (UpdatedAt s).
End Staff.

(** [models.StaffCreateRequest]. *)
Module StaffCreateRequest.
Record t : Type := mk {
  Username : string;
  Password : string;
  Hospital : string
}.
End StaffCreateRequest.

(** [models.StaffLoginRequest]. *)
Module StaffLoginRequest.
Record t : Type := mk {
  Username : string;
  Password : string;
  Hospital : string
}.
End StaffLoginRequest.

(** [models.Patient]; [DateOfBirth] is a nullable pointer in the source. *)
Module Patient.
Record t : Type := mk {
  ID : N;
  HospitalID : N;
  PatientHN : string;
  FirstNameTH : string;
  MiddleNameTH : string;
  LastNameTH : string;
  FirstNameEN : string;
  MiddleNameEN : string;
  LastNameEN : string;
  DateOfBirth : option time.Time;
  NationalID : string;
  PassportID : string;
  PhoneNumber : string;
  Email : string;
  Gender : string
}.
End Patient.

(** [models.PatientSearchQuery]: every field is a [*string]; [None] is the
    nil pointer (parameter not provided). *)
Module PatientSearchQuery.
Record t : Type := mk {
  NationalID : option string;
  PassportID : option string;
  FirstNameTH : option string;
  FirstNameEN : option string;
  MiddleNameTH : option string;
  MiddleNameEN : option string;
  LastNameTH : option string;
  LastNameEN : option string;
  DateOfBirth : option string;
  PhoneNumber : option string;
  Email : option string
}.
End PatientSearchQuery.

(* ================================================================== *)
(** * The relational store *)

Module sql.

(** Strings are byte strings, as in Go; the store keeps text in UTF-8 and
    matches by characters.  A byte of the form 10xxxxxx continues the
    character begun before it. *)
Definition continuation (c : ascii) : bool :=
  match c with
  | Ascii _ _ _ _ _ _ b6 b7 => b7 && negb b6
  end.

(** The text from its first byte that begins a character. *)
Fixpoint skip_continuation (s : string) : string :=
  match s with
  | String c s' => if continuation c then skip_continuation s' else s
  | EmptyString => s
  end.

(** The text starts at a character (or is empty). *)
Definition boundary (s : string) : bool :=
  match s with
  | String c _ => negb (continuation c)
  | EmptyString => true
  end.

(** [f] holds of the text that remains after one or more characters. *)
Fixpoint later (f : string -> bool) (text : string) : bool :=
  match text with
  | EmptyString => false
  | String _ t' => (boundary t' && f t') || later f t'
  end.

(** [text LIKE pattern] as the store evaluates it in a UTF-8 database: [%]
    matches any run of characters, [_] any single character (a byte and the
    continuation bytes after it), a backslash makes the next pattern byte
    literal, every other byte matches itself.
    (A pattern that ends in a lone backslash is rejected by the store; the
    patterns built by [SearchPatients] always end in [%], so the case does
    not arise and is given the value [false].) *)
Fixpoint like (pattern : string) : string -> bool :=
  match pattern with
  | EmptyString =>
      fun text => match text with EmptyString => true | _ => false end
  | String c p' =>
      if Ascii.eqb c "%" then
        fun text => like p' text || later (like p') text
      else if Ascii.eqb c "_" then
        fun text =>
          match text with
          | EmptyString => false
          | String _ t' => like p' (skip_continuation t')
          end
      else if Ascii.eqb c "\" then
        match p' with
        | EmptyString => fun _ => false
        | String e p'' =>
            fun text =>
              match text with
              | EmptyString => false
              | String x t' => Ascii.eqb x e && like p'' t'
              end
        end
      else
        fun text =>
          match text with
          | EmptyString => false
          | String x t' => Ascii.eqb x c && like p' t'
          end
  end.

(** The text columns of table [patients] that the search refers to. *)
Inductive Column : Type :=
| national_id | passport_id
| first_name_th | first_name_en
| middle_name_th | middle_name_en
| last_name_th | last_name_en
| phone_number | email.

Definition column (c : Column) (p : Patient.t) : string :=
  match c with
  | national_id => Patient.NationalID p
  | passport_id => Patient.PassportID p
  | first_name_th => Patient.FirstNameTH p
  | first_name_en => Patient.FirstNameEN p
  | middle_name_th => Patient.MiddleNameTH p
  | middle_name_en => Patient.MiddleNameEN p
  | last_name_th => Patient.LastNameTH p
  | last_name_en => Patient.LastNameEN p
  | phone_number => Patient.PhoneNumber p
  | email => Patient.Email p
  end.

(** The condition strings passed to [Where], with their arguments bound. *)
Inductive Cond : Type :=
| hospital_id_eq (v : N)                       (* "hospital_id = ?" *)
| col_eq (c : Column) (v : string)             (* "<c> = ?" *)
| col_like (c : Column) (pattern : string)     (* "<c> LIKE ?" *)
| like_or_like (c1 : Column) (p1 : string)
               (c2 : Column) (p2 : string)     (* "<c1> LIKE ? OR <c2> LIKE ?" *)
| date_of_birth_eq (v : time.Time).            (* "date_of_birth = ?" *)

(** Truth of a condition on a row; a NULL date of birth equals nothing. *)
Definition holds (p : Patient.t) (c : Cond) : bool :=
  match c with
  | hospital_id_eq v => N.eqb (Patient.HospitalID p) v
  | col_eq c v => String.eqb (column c p) v
  | col_like c pat => like pat (column c p)
  | like_or_like c1 p1 c2 p2 => like p1 (column c1 p) || like p2 (column c2 p)
  | date_of_birth_eq v =>
      match Patient.DateOfBirth p with
      | Some d => Z.eqb d v
      | None => false
      end
  end.

(** A query under construction: the conditions chained so far. *)
Definition Query : Type := list Cond.

(** [db.Where(cond, args...)]: one more condition, joined with AND. *)
Definition Where (q : Query) (c : Cond) : Query := (q ++ [c])%list.

(** The rows selected by a query. *)
Definition select (q : Query) (rows : list Patient.t) : list Patient.t :=
  filter (fun p => forallb (holds p) q) rows.

End sql.

(** The store: the two tables, the sequence that numbers new staff rows, and
    the failure (connection loss and the like) that the next read or write
    statement meets, if any. *)
Record DB : Type := mkDB {
  staff_rows : list Staff.t;
  patient_rows : list Patient.t;
  staff_seq : N;
  read_fault : option error;
  write_fault : option error
}.

(* ================================================================== *)
(** * internal/database *)

Module database.

(** [.First(&staff)]: the matching row with the least primary key. *)
Fixpoint least_ID (best : Staff.t) (rows : list Staff.t) : Staff.t :=
  match rows with
  | [] => best
  | r :: rs =>
      least_ID (if N.ltb (Staff.ID r) (Staff.ID best) then r else best) rs
  end.

Definition First (rows : list Staff.t) : Result Staff.t :=
  match rows with
  | [] => Err (sentinel gorm_ErrRecordNotFound)
  | r :: rs => Ok (least_ID r rs)
  end.

(** [FindStaffByUsername]: [DB.Where("username = ?", username).First]. *)
Definition FindStaffByUsername (db : DB) (username : string)
  : Result Staff.t :=
  match read_fault db with
  | Some e => Err e
  | None =>
      First (filter (fun s => String.eqb (Staff.Username s) username)
                    (staff_rows db))
  end.

(** [CreateStaff]: [DB.Create(staff)].  The store numbers the row when the
    primary key is zero, stamps the zero timestamps with the current time,
    and refuses a duplicate primary key or username.  The struct behind
    the pointer is updated with what was stored: it is returned together
    with the new store. *)
Definition CreateStaff (db : DB) (now : time.Time) (staff : Staff.t)
  : Result Staff.t * DB :=
  match write_fault db with
  | Some e => (Err e, db)
  | None =>
      let id := if N.eqb (Staff.ID staff) 0
                then N.succ (staff_seq db) else Staff.ID staff in
      let seq := if N.eqb (Staff.ID staff) 0
                 then N.succ (staff_seq db) else staff_seq db in
      if existsb (fun s => N.eqb (Staff.ID s) id
                           || String.eqb (Staff.Username s)
                                         (Staff.Username staff))
                 (staff_rows db)
      then (Err (errorString
                   "duplicate key value violates unique constraint"),
            mkDB (staff_rows db) (patient_rows db) seq
                 (read_fault db) (write_fault db))
      else
        let row :=
          Staff.mk id (Staff.Username staff) (Staff.PasswordHash staff)
                   (Staff.HospitalID staff) (Staff.HospitalName staff)
                   (if time.IsZero (Staff.CreatedAt staff) then now
                    else Staff.CreatedAt staff)
                   (if time.IsZero (Staff.UpdatedAt staff) then now
                    else Staff.UpdatedAt staff) in
        (Ok row,
         mkDB (staff_rows db ++ [row])%list (patient_rows db) seq
              (read_fault db) (write_fault db))
  end.

(** [f != nil && *f != ""]. *)
Definition given (f : option string) : bool :=
  match f with
  | Some v => negb (String.eqb v "")
  | None => false
  end.

(** [*f], read only under [given f]. *)
Definition deref (f : option string) : string :=
  match f with
  | Some v => v
  | None => ""
  end.

(** The three name blocks of [SearchPatients] are the same code on
    different columns. *)
Definition name_block (dbQuery : sql.Query)
           (colTH colEN : sql.Column) (th en : option string) : sql.Query :=
  if given th && given en then
    let nameLikeTH := "%" ++ deref th ++ "%" in
    let nameLikeEN := "%" ++ deref en ++ "%" in
    sql.Where dbQuery (sql.like_or_like colTH nameLikeTH colEN nameLikeEN)
  else if given th then
    let nameLike := "%" ++ deref th ++ "%" in
    sql.Where dbQuery (sql.col_like colTH nameLike)
  else if given en then
    let nameLike := "%" ++ deref en ++ "%" in
    sql.Where dbQuery (sql.col_like colEN nameLike)
  else dbQuery.

(** The query that [SearchPatients] builds before running it. *)
Definition SearchPatients_query (query : PatientSearchQuery.t)
           (hospitalID : N) : sql.Query :=
  let dbQuery := sql.Where [] (sql.hospital_id_eq hospitalID) in
  let dbQuery :=
    if given (PatientSearchQuery.NationalID query)
    then sql.Where dbQuery
           (sql.col_eq sql.national_id
                       (deref (PatientSearchQuery.NationalID query)))
    else dbQuery in
  let dbQuery :=
    if given (PatientSearchQuery.PassportID query)
    then sql.Where dbQuery
           (sql.col_eq sql.passport_id
                       (deref (PatientSearchQuery.PassportID query)))
    else dbQuery in
  let dbQuery :=
    name_block dbQuery sql.first_name_th sql.first_name_en
               (PatientSearchQuery.FirstNameTH query)
               (PatientSearchQuery.FirstNameEN query) in
  let dbQuery :=
    name_block dbQuery sql.middle_name_th sql.middle_name_en
               (PatientSearchQuery.MiddleNameTH query)
               (PatientSearchQuery.MiddleNameEN query) in
  let dbQuery :=
    name_block dbQuery sql.last_name_th sql.last_name_en
               (PatientSearchQuery.LastNameTH query)
               (PatientSearchQuery.LastNameEN query) in
  let dbQuery :=
    if given (PatientSearchQuery.DateOfBirth query) then
      match time.Parse_2006_01_02
              (deref (PatientSearchQuery.DateOfBirth query)) with
      | Ok dob => sql.Where dbQuery (sql.date_of_birth_eq dob)
      | Err _ => dbQuery            (* warning logged, nothing added *)
      end
    else dbQuery in
  let dbQuery :=
    if given (PatientSearchQuery.PhoneNumber query)
    then sql.Where dbQuery
           (sql.col_eq sql.phone_number
                       (deref (PatientSearchQuery.PhoneNumber query)))
    else dbQuery in
  let dbQuery :=
    if given (PatientSearchQuery.Email query)
    then sql.Where dbQuery
           (sql.col_eq sql.email (deref (PatientSearchQuery.Email query)))
    else dbQuery in
  dbQuery.

(** [SearchPatients]: build the query, then [dbQuery.Find(&patients)]. *)
Definition SearchPatients (db : DB) (query : PatientSearchQuery.t)
           (hospitalID : N) : Result (list Patient.t) :=
  let dbQuery := SearchPatients_query query hospitalID in
  match read_fault db with
  | Some e => Err e
  | None => Ok (sql.select dbQuery (patient_rows db))
  end.

(** [GetHospitalIDByName]. *)
Definition GetHospitalIDByName (hospitalName : string) : Result N :=
  if String.eqb hospitalName "Hospital A" then Ok 1%N
  else if String.eqb hospitalName "Hospital B" then Ok 2%N
  else Err (errorString ("hospital not found: " ++ hospitalName)).

End database.

(* ================================================================== *)
(** * Session tokens: the JWT library as [ValidateToken] drives it *)

(** Hash functions of the HMAC signing methods. *)
Inductive Hash : Type := SHA256 | SHA384 | SHA512.

(** [jwt.NumericDate]: a time truncated to whole seconds, kept as the number
    of seconds since the Unix epoch (what the token carries). *)
Definition NumericDate : Type := Z.

(** [jwt.RegisteredClaims]. *)
Module RegisteredClaims.
Record t : Type := mk {
  Issuer : string;
  Subject : string;
  Audience : list string;
  ExpiresAt : option NumericDate;
  NotBefore : option NumericDate;
  IssuedAt : option NumericDate;
  ID : string
}.
End RegisteredClaims.

(** [services.Claims]: the custom claims with the registered ones embedded. *)
Module Claims.
Record t : Type := mk {
  UserID : N;
  Username : string;
  HospitalID : N;
  Registered : RegisteredClaims.t
}.
End Claims.

(** What the model takes from outside for tokens: the keyed hash behind the
    HS* methods, and the encoder of the signing input (the base64url JSON
    header and claims segments joined by a dot). *)
Class JWTPrimitives : Type := {
  hmac : Hash -> string -> string -> string;
  SigningString : string -> Claims.t -> string
}.

(** pkg/utils is not among the sources; its two functions are parameters. *)
Class PasswordHasher : Type := {
  HashPassword : string -> Result string;
  CheckPasswordHash : string -> string -> bool
}.

Module jwt.

Inductive SigningMethod : Type :=
| SigningMethodHMAC (h : Hash)
| SigningMethodRSA (h : Hash)
| SigningMethodRSAPSS (h : Hash)
| SigningMethodECDSA (h : Hash)
| SigningMethodEd25519
| SigningMethodNone.

Definition SigningMethodHS256 : SigningMethod := SigningMethodHMAC SHA256.

Definition Alg (m : SigningMethod) : string :=
  match m with
  | SigningMethodHMAC SHA256 => "HS256"
  | SigningMethodHMAC SHA384 => "HS384"
  | SigningMethodHMAC SHA512 => "HS512"
  | SigningMethodRSA SHA256 => "RS256"
  | SigningMethodRSA SHA384 => "RS384"
  | SigningMethodRSA SHA512 => "RS512"
  | SigningMethodRSAPSS SHA256 => "PS256"
  | SigningMethodRSAPSS SHA384 => "PS384"
  | SigningMethodRSAPSS SHA512 => "PS512"
  | SigningMethodECDSA SHA256 => "ES256"
  | SigningMethodECDSA SHA384 => "ES384"
  | SigningMethodECDSA SHA512 => "ES512"
  | SigningMethodEd25519 => "EdDSA"
  | SigningMethodNone => "none"
  end.

Definition registered : list SigningMethod :=
  [ SigningMethodHMAC SHA256; SigningMethodHMAC SHA384;
    SigningMethodHMAC SHA512;
    SigningMethodRSA SHA256; SigningMethodRSA SHA384;
    SigningMethodRSA SHA512;
    SigningMethodRSAPSS SHA256; SigningMethodRSAPSS SHA384;
    SigningMethodRSAPSS SHA512;
    SigningMethodECDSA SHA256; SigningMethodECDSA SHA384;
    SigningMethodECDSA SHA512;
    SigningMethodEd25519; SigningMethodNone ].

(** [jwt.GetSigningMethod(alg)]: exact match on the registered names. *)
Definition GetSigningMethod (alg : string) : option SigningMethod :=
  find (fun m => String.eqb (Alg m) alg) registered.

(** [jwt.NewNumericDate(t)]: [t.Truncate(time.Second)], in seconds. *)
Definition NewNumericDate (t : time.Time) : NumericDate :=
  (time.Truncate t time.Second / time.Second)%Z.

(** The time a numeric date stands for. *)
Definition Time_of (d : NumericDate) : time.Time := (d * time.Second)%Z.

(** A token string as the library's decoder sees it: either it does not
    split into three base64url segments that decode to a JSON header, JSON
    claims and a signature ([Undecodable]), or it does, and then
    [signingString] is the text of its first two segments, [alg] the
    header's algorithm name if it has one, [claims] the decoded claims and
    [signature] the decoded third segment. *)
Inductive TokenString : Type :=
| Undecodable (raw : string)
| Compact (signingString : string) (alg : option string)
          (claims : Claims.t) (signature : string).

(** [jwt.Token]. *)
Record Token : Type := mkToken {
  Method : SigningMethod;
  TokenClaims : Claims.t;
  Signature : string;
  Valid : bool
}.

(** [jwt.NewWithClaims(method, claims)]. *)
Definition NewWithClaims (m : SigningMethod) (claims : Claims.t) : Token :=
  mkToken m claims "" false.

Section WithPrimitives.
Context {P : JWTPrimitives}.

(** [method.Sign(signingString, key)] with a [[]byte] key: only the HMAC
    methods accept such a key. *)
Definition Sign (m : SigningMethod) (signingString key : string)
  : Result string :=
  match m with
  | SigningMethodHMAC h => Ok (hmac h key signingString)
  | _ => Err (sentinel jwt_ErrInvalidKeyType)
  end.

(** [method.Verify(signingString, sig, key)] with a [[]byte] key: the
    HMAC methods recompute the keyed hash and compare; every other
    method rejects the key. *)
Definition Verify (m : SigningMethod) (signingString sig key : string)
  : option error :=
  match m with
  | SigningMethodHMAC h =>
      if String.eqb sig (hmac h key signingString) then None
      else Some (sentinel jwt_ErrSignatureInvalid)
  | _ => Some (sentinel jwt_ErrInvalidKeyType)
  end.

(** [token.SignedString(key)]: the signing input, a dot, the signature.
    The string produced decodes to what was encoded. *)
Definition SignedString (t : Token) (key : string) : Result TokenString :=
  let sstr := SigningString (Alg (Method t)) (TokenClaims t) in
  let? sig := Sign (Method t) sstr key in
  Ok (Compact sstr (Some (Alg (Method t))) (TokenClaims t) sig).

(** [parser.ParseUnverified]: decode and look the signing method up. *)
Definition ParseUnverified (tokenStr : TokenString)
  : Result (Token * string) :=
  match tokenStr with
  | Undecodable _ => Err (sentinel jwt_ErrTokenMalformed)
  | Compact sstr alg claims sig =>
      match alg with
      | None => Err (sentinel jwt_ErrTokenUnverifiable)
      | Some a =>
          match GetSigningMethod a with
          | None => Err (sentinel jwt_ErrTokenUnverifiable)
          | Some m => Ok (mkToken m claims sig false, sstr)
          end
      end
  end.

(** [validator.Validate(claims)] with the default options: expiry and
    not-before are checked when present, issued-at is not checked. *)
Definition Validate (now : time.Time) (claims : Claims.t)
  : option error :=
  let rc := Claims.Registered claims in
  let expErr :=
    match RegisteredClaims.ExpiresAt rc with
    | Some exp =>
        if time.Before now (Time_of exp) then None
        else Some (sentinel jwt_ErrTokenExpired)
    | None => None
    end in
  let nbfErr :=
    match RegisteredClaims.NotBefore rc with
    | Some nbf =>
        if negb (time.Before now (Time_of nbf)) then None
        else Some (sentinel jwt_ErrTokenNotValidYet)
    | None => None
    end in
  match expErr, nbfErr with
  | None, None => None
  | Some e, None => Some e
  | None, Some e => Some e
  | Some e1, Some e2 => Some (joinedError e1 e2)
  end.

(** [jwt.ParseWithClaims(tokenStr, claims, keyFunc)], read at time
    [now]: decode, ask [keyFunc] for the key, verify the signature, then
    validate the claims. *)
Definition ParseWithClaims (now : time.Time) (tokenStr : TokenString)
           (keyFunc : Token -> Result string) : Result Token :=
  let? (token, text) := ParseUnverified tokenStr in
  match keyFunc token with
  | Err err => Err (joinedError (sentinel jwt_ErrTokenUnverifiable) err)
  | Ok key =>
      match Verify (Method token) text (Signature token) key with
      | Some err =>
          Err (joinedError (sentinel jwt_ErrTokenSignatureInvalid) err)
      | None =>
          match Validate now (TokenClaims token) with
          | Some err =>
              Err (joinedError (sentinel jwt_ErrTokenInvalidClaims) err)
          | None =>
              Ok (mkToken (Method token) (TokenClaims token)
                          (Signature token) true)
          end
      end
  end.

End WithPrimitives.

End jwt.

(* ================================================================== *)
(** * internal/services *)

Module services.

(** The package-level variables [jwtKey] and [jwtExpiry], as set by
    [InitializeAuthService]. *)
Record AuthService : Type := mkAuthService {
  jwtKey : string;
  jwtExpiry : time.Duration
}.

Definition InitializeAuthService (JWTSecret : string)
           (JWTExpiry : time.Duration) : AuthService :=
  mkAuthService JWTSecret JWTExpiry.

(** [fmt.Sprintf("%d", n)]. *)
Definition Sprintf_d (n : N) : string :=
  NilEmpty.string_of_uint (N.to_uint n).

Section WithExternals.
Context {P : JWTPrimitives} {H : PasswordHasher}.

(** Step 4 of [AuthenticateStaff] (inline in the source): build the
    claims and sign them.  [now] and [now'] are the two readings of
    [time.Now()], the first for the expiry and the second for the issue
    time. *)
Definition GenerateToken (svc : AuthService) (now now' : time.Time)
           (staff : Staff.t) : Result jwt.TokenString :=
  let expirationTime := time.Add now (jwtExpiry svc) in
  let claims :=
    Claims.mk (Staff.ID staff) (Staff.Username staff)
              (Staff.HospitalID staff)
              (RegisteredClaims.mk
                 "" (Sprintf_d (Staff.ID staff)) []
                 (Some (jwt.NewNumericDate expirationTime))
                 None
                 (Some (jwt.NewNumericDate now'))
                 "") in
  let token := jwt.NewWithClaims jwt.SigningMethodHS256 claims in
  match jwt.SignedString token (jwtKey svc) with
  | Err err => Err (wrapError "could not generate token" err)
  | Ok tokenString => Ok tokenString
  end.

(** [AuthenticateStaff]. *)
Definition AuthenticateStaff (svc : AuthService) (db : DB)
           (now now' : time.Time) (loginReq : StaffLoginRequest.t)
  : Result (jwt.TokenString * Staff.t) :=
  (* 1. Find the staff member by username *)
  match database.FindStaffByUsername
          db (StaffLoginRequest.Username loginReq) with
  | Err err =>
      if errors.Is err gorm_ErrRecordNotFound
      then Err (errors.New "invalid username or password")
      else Err (wrapError "database error during login" err)
  | Ok staff =>
  (* 2. Check if the provided hospital matches the staff's hospital *)
  match database.GetHospitalIDByName
          (StaffLoginRequest.Hospital loginReq) with
  | Err err =>
      if errors.Is err gorm_ErrRecordNotFound
      then Err (errors.New "invalid hospital specified")
      else Err (errors.New "error verifying hospital")
  | Ok inputHospitalID =>
  if negb (N.eqb (Staff.HospitalID staff) inputHospitalID)
  then Err (errors.New "invalid hospital for this user")
  (* 3. Verify the password *)
  else if negb (CheckPasswordHash (StaffLoginRequest.Password loginReq)
                                  (Staff.PasswordHash staff))
  then Err (errors.New "invalid username or password")
  else
  (* 4. Generate JWT Token *)
  let? tokenString := GenerateToken svc now now' staff in
  Ok (tokenString, Staff.set_PasswordHash staff "")
  end end.

(** [ValidateToken], run at time [now]. *)
Definition ValidateToken (svc : AuthService) (now : time.Time)
           (tokenStr : jwt.TokenString) : Result Claims.t :=
  let keyFunc (token : jwt.Token) : Result string :=
    match jwt.Method token with
    | jwt.SigningMethodHMAC _ => Ok (jwtKey svc)
    | m => Err (errorString ("unexpected signing method: " ++ jwt.Alg m))
    end in
  match jwt.ParseWithClaims now tokenStr keyFunc with
  | Err err =>
      if errors.Is err jwt_ErrTokenExpired
      then Err (errors.New "token is expired")
      else Err (errors.New "invalid token")
  | Ok token =>
      if negb (jwt.Valid token)
      then Err (errors.New "invalid token")
      else Ok (jwt.TokenClaims token)
  end.

End WithExternals.

End services.

(* ================================================================== *)
(** * internal/api/handlers *)

Module handlers.

(** The Go value handed to [c.JSON]. *)
Inductive Body : Type :=
| H_error (msg : string)                          (* gin.H{"error": msg} *)
| StaffBody (s : Staff.t)
| StaffLoginResponse (Token : jwt.TokenString) (Staff : Staff.t)
| PatientsBody (ps : list Patient.t).

Record Response : Type := mkResponse {
  status : N;
  body : Body
}.

Definition StatusOK : N := 200.
Definition StatusCreated : N := 201.
Definition StatusBadRequest : N := 400.
Definition StatusUnauthorized : N := 401.
Definition StatusConflict : N := 409.
Definition StatusInternalServerError : N := 500.

(** What [c.Get(middleware.ContextKeyClaims)] finds in the context. *)
Inductive ContextValue : Type :=
| NoValue
| ClaimsValue (claims : Claims.t)
| OtherValue.

Section WithExternals.
Context {P : JWTPrimitives} {H : PasswordHasher}.

(** [SearchPatientHandler]; [bound] is the outcome of
    [c.ShouldBindQuery(&searchQuery)]. *)
Definition SearchPatientHandler (db : DB) (ctx : ContextValue)
           (bound : Result PatientSearchQuery.t) : Response :=
  match ctx with
  | NoValue =>
      mkResponse StatusUnauthorized
                 (H_error "Authentication required (claims not found)")
  | OtherValue =>
      mkResponse StatusInternalServerError
                 (H_error "Internal server error processing authentication")
  | ClaimsValue claims =>
      let staffHospitalID := Claims.HospitalID claims in
      match bound with
      | Err err =>
          mkResponse StatusBadRequest
                     (H_error ("Invalid query parameters: " ++ Error err))
      | Ok searchQuery =>
          match database.SearchPatients db searchQuery staffHospitalID with
          | Err _ =>
              mkResponse StatusInternalServerError
                         (H_error "Database error during patient search")
          | Ok patients =>
              match patients with
              | [] => mkResponse StatusOK (PatientsBody [])
              | _ => mkResponse StatusOK (PatientsBody patients)
              end
          end
      end
  end.

(** [CreateStaffHandler]; [bound] is the outcome of
    [c.ShouldBindJSON(&req)], [now] the time of the insert. *)
Definition CreateStaffHandler (db : DB) (now : time.Time)
           (bound : Result StaffCreateRequest.t) : Response * DB :=
  match bound with
  | Err err =>
      (mkResponse StatusBadRequest
                  (H_error ("Invalid request body: " ++ Error err)), db)
  | Ok req =>
  match database.FindStaffByUsername
          db (StaffCreateRequest.Username req) with
  | Ok _ =>
      (mkResponse StatusConflict (H_error "Username already exists"), db)
  | Err err =>
  if negb (errors.Is err gorm_ErrRecordNotFound)
  then (mkResponse StatusInternalServerError
                   (H_error "Database error checking username"), db)
  else
  match HashPassword (StaffCreateRequest.Password req) with
  | Err _ =>
      (mkResponse StatusInternalServerError
                  (H_error "Failed to process password"), db)
  | Ok hashedPassword =>
  match database.GetHospitalIDByName
          (StaffCreateRequest.Hospital req) with
  | Err err =>
      (mkResponse StatusBadRequest
                  (H_error ("Invalid hospital specified: " ++ Error err)),
       db)
  | Ok hospitalID =>
  let newStaff :=
    Staff.mk 0 (StaffCreateRequest.Username req) hashedPassword
             hospitalID (StaffCreateRequest.Hospital req)
             time.zero time.zero in
  match database.CreateStaff db now newStaff with
  | (Err _, db') =>
      (mkResponse StatusInternalServerError
                  (H_error "Failed to create staff member"), db')
  | (Ok newStaff, db') =>
      (* newStaff.PasswordHash = "" *)
      (mkResponse StatusCreated
                  (StaffBody (Staff.set_PasswordHash newStaff "")), db')
  end end end end end.

(** [LoginStaffHandler]; [bound] is the outcome of
    [c.ShouldBindJSON(&req)]. *)
Definition LoginStaffHandler (svc : services.AuthService) (db : DB)
           (now now' : time.Time) (bound : Result StaffLoginRequest.t)
  : Response :=
  match bound with
  | Err err =>
      mkResponse StatusBadRequest
                 (H_error ("Invalid request body: " ++ Error err))
  | Ok req =>
      match services.AuthenticateStaff svc db now now' req with
      | Err err => mkResponse StatusUnauthorized (H_error (Error err))
      | Ok (token, staff) =>
          mkResponse StatusOK (StaffLoginResponse token staff)
      end
  end.

End WithExternals.

End handlers.

(* ================================================================== *)
(** * Vocabulary of the specification *)

Module spec.

(** [sub] occurs in [s] as a contiguous substring. *)
Fixpoint contains (sub s : string) : bool :=
  String.prefix sub s
  || match s with
     | EmptyString => false
     | String _ s' => contains sub s'
     end.

(** The characters with a special meaning in a LIKE pattern. *)
Definition wildcard (c : ascii) : bool :=
  Ascii.eqb c "%" || Ascii.eqb c "_" || Ascii.eqb c "\".

(** A string without LIKE wildcards. *)
Fixpoint plain (s : string) : bool :=
  match s with
  | EmptyString => true
  | String c s' => negb (wildcard c) && plain s'
  end.

(** What the search does with a name value: [field LIKE '%' + v + '%']. *)
Definition like_anywhere (v field : string) : bool :=
  sql.like ("%" ++ v ++ "%") field.

(** A criterion field counts as supplied when it is present and not the
    empty string. *)
Definition supplied (f : option string) : option string :=
  match f with
  | Some v => if String.eqb v "" then None else Some v
  | None => None
  end.

(** An exact-match criterion. *)
Definition exact (f : option string) (field : string) : bool :=
  match supplied f with
  | Some v => String.eqb field v
  | None => true
  end.

(** A bilingual name pair under the matching relation [m]: either variant
    may match when both are supplied, the single one must when only one
    is, and nothing is asked when neither is. *)
Definition name_pair (m : string -> string -> bool)
           (th en : option string) (fieldTH fieldEN : string) : bool :=
  match supplied th, supplied en with
  | Some a, Some b => m a fieldTH || m b fieldEN
  | Some a, None => m a fieldTH
  | None, Some b => m b fieldEN
  | None, None => true
  end.

(** The date-of-birth criterion: equality with the parsed date; a value
    that does not parse asks nothing. *)
Definition born_on (f : option string) (dob : option time.Time) : bool :=
  match supplied f with
  | None => true
  | Some v =>
      match time.Parse_2006_01_02 v with
      | Err _ => true
      | Ok d => match dob with Some x => Z.eqb x d | None => false end
      end
  end.

(** The conjunction of all field groups, names matched by [m]. *)
Definition matches (m : string -> string -> bool)
           (q : PatientSearchQuery.t) (p : Patient.t) : bool :=
  exact (PatientSearchQuery.NationalID q) (Patient.NationalID p)
  && exact (PatientSearchQuery.PassportID q) (Patient.PassportID p)
  && name_pair m (PatientSearchQuery.FirstNameTH q)
               (PatientSearchQuery.FirstNameEN q)
               (Patient.FirstNameTH p) (Patient.FirstNameEN p)
  && name_pair m (PatientSearchQuery.MiddleNameTH q)
               (PatientSearchQuery.MiddleNameEN q)
               (Patient.MiddleNameTH p) (Patient.MiddleNameEN p)
  && name_pair m (PatientSearchQuery.LastNameTH q)
               (PatientSearchQuery.LastNameEN q)
               (Patient.LastNameTH p) (Patient.LastNameEN p)
  && born_on (PatientSearchQuery.DateOfBirth q) (Patient.DateOfBirth p)
  && exact (PatientSearchQuery.PhoneNumber q) (Patient.PhoneNumber p)
  && exact (PatientSearchQuery.Email q) (Patient.Email p).

(** A name value is usable as a literal when it is absent, or has no
    wildcard and starts at a character, as every UTF-8 text does. *)
Definition plain_value (f : option string) : bool :=
  match f with
  | Some v => plain v && sql.boundary v
  | None => true
  end.

Definition plain_names (q : PatientSearchQuery.t) : bool :=
  plain_value (PatientSearchQuery.FirstNameTH q)
  && plain_value (PatientSearchQuery.FirstNameEN q)
  && plain_value (PatientSearchQuery.MiddleNameTH q)
  && plain_value (PatientSearchQuery.MiddleNameEN q)
  && plain_value (PatientSearchQuery.LastNameTH q)
  && plain_value (PatientSearchQuery.LastNameEN q).

(** The criterion fields, to speak of "any field". *)
Inductive Field : Type :=
| NationalID | PassportID
| FirstNameTH | FirstNameEN
| MiddleNameTH | MiddleNameEN
| LastNameTH | LastNameEN
| DateOfBirth | PhoneNumber | Email.

(** The query [q] with field [f] replaced by [v]. *)
Definition set (f : Field) (v : option string) (q : PatientSearchQuery.t)
  : PatientSearchQuery.t :=
  let pick (g : Field) (old : option string) : option string :=
    match f, g with
    | NationalID, NationalID | PassportID, PassportID
    | FirstNameTH, FirstNameTH | FirstNameEN, FirstNameEN
    | MiddleNameTH, MiddleNameTH | MiddleNameEN, MiddleNameEN
    | LastNameTH, LastNameTH | LastNameEN, LastNameEN
    | DateOfBirth, DateOfBirth | PhoneNumber, PhoneNumber
    | Email, Email => v
    | _, _ => old
    end in
  PatientSearchQuery.mk
    (pick NationalID (PatientSearchQuery.NationalID q))
    (pick PassportID (PatientSearchQuery.PassportID q))
    (pick FirstNameTH (PatientSearchQuery.FirstNameTH q))
    (pick FirstNameEN (PatientSearchQuery.FirstNameEN q))
    (pick MiddleNameTH (PatientSearchQuery.MiddleNameTH q))
    (pick MiddleNameEN (PatientSearchQuery.MiddleNameEN q))
    (pick LastNameTH (PatientSearchQuery.LastNameTH q))
    (pick LastNameEN (PatientSearchQuery.LastNameEN q))
    (pick DateOfBirth (PatientSearchQuery.DateOfBirth q))
    (pick PhoneNumber (PatientSearchQuery.PhoneNumber q))
    (pick Email (PatientSearchQuery.Email q)).

(** The three ways a token string is rejected as invalid. *)
Definition malformed (tok : jwt.TokenString) : Prop :=
  exists raw, tok = jwt.Undecodable raw.

(** The header names no algorithm, an unknown one, or one that is not an
    HMAC method. *)
Definition alg_not_HMAC (tok : jwt.TokenString) : Prop :=
  exists sstr alg claims sig,
    tok = jwt.Compact sstr alg claims sig
    /\ forall a h, alg = Some a ->
                   jwt.GetSigningMethod a <> Some (jwt.SigningMethodHMAC h).

(** An HMAC algorithm is named, and the signature is not the keyed hash
    of the signing input under the configured key. *)
Definition bad_signature {P : JWTPrimitives} (key : string)
           (tok : jwt.TokenString) : Prop :=
  exists sstr a h claims sig,
    tok = jwt.Compact sstr (Some a) claims sig
    /\ jwt.GetSigningMethod a = Some (jwt.SigningMethodHMAC h)
    /\ sig <> hmac h key sstr.

(** The expiry a token issued at [now] carries. *)
Definition expires_at (svc : services.AuthService) (now : time.Time)
  : time.Time :=
  jwt.Time_of (jwt.NewNumericDate (time.Add now (services.jwtExpiry svc))).

End spec.

(* ================================================================== *)
(** * Sample data *)

Module sample.

(** Stand-ins for the keyed hash, the encoder and the password hasher,
    good enough to run the code on examples. *)
Definition primitives : JWTPrimitives :=
  {| hmac := fun h key text =>
       (match h with SHA256 => "s256" | SHA384 => "s384" | SHA512 => "s512"
        end) ++ "(" ++ key ++ "," ++ text ++ ")";
     SigningString := fun alg c =>
       alg ++ "." ++ Claims.Username c |}.

Definition hasher : PasswordHasher :=
  {| HashPassword := fun pw => Ok ("hashed:" ++ pw);
     CheckPasswordHash := fun pw h => String.eqb h ("hashed:" ++ pw) |}.

Definition svc : services.AuthService :=
  services.InitializeAuthService "a_very_secret_key" (24 * time.Hour)%Z.

Definition alice : Staff.t :=
  Staff.mk 1 "alice" "hashed:pw123" 1 "Hospital A" 1000%Z 1000%Z.

Definition patientA : Patient.t :=
  Patient.mk 1 1 "HN0001" "th-a" "" "th-b" "abc" "" "Jaidii"
             (Some (time.Date 1990 5 15)%Z) "N1" "" "0812345678"
             "somchai@example.com" "M".

Definition patientB : Patient.t :=
  Patient.mk 2 2 "HN0011" "th-c" "" "th-d" "Sombat" "" "Meetrap"
             None "N1" "" "0611223344" "sombat@example.com" "M".

Definition db : DB :=
  mkDB [alice] [patientA; patientB] 1 None None.

Definition no_criteria : PatientSearchQuery.t :=
  PatientSearchQuery.mk None None None None None None None None None
                        None None.

(** A first-name criterion with a LIKE wildcard in it. *)
Definition wildcard_query : PatientSearchQuery.t :=
  spec.set spec.FirstNameEN (Some "a_c") no_criteria.

Definition by_national_id (v : string) : PatientSearchQuery.t :=
  spec.set spec.NationalID (Some v) no_criteria.

Definition by_date_of_birth (v : string) : PatientSearchQuery.t :=
  spec.set spec.DateOfBirth (Some v) no_criteria.

Definition login (user pw hospital : string) : StaffLoginRequest.t :=
  StaffLoginRequest.mk user pw hospital.

(** Claims as an outsider would write them. *)
Definition mallory_claims : Claims.t :=
  Claims.mk 1 "alice" 2
            (RegisteredClaims.mk "" "1" [] None None None "").

(** One second after the epoch, and one day and a second after it. *)
Definition t1 : time.Time := time.Second.
Definition t_late : time.Time := (24 * time.Hour + time.Second)%Z.

End sample.

(* ================================================================== *)
(** * internal/api/middleware and the routes *)

(** The decoder of the JWT library, from the text of a token to what
    [ValidateToken] works on. *)
Class TokenDecoder : Type := {
  decode : string -> jwt.TokenString
}.

Module strings.

(** [strings.Split(s, sep)] for a one-byte separator: the pieces between
    the occurrences of [sep]; the empty string gives one empty piece. *)
Fixpoint Split (s : string) (sep : ascii) : list string :=
  match s with
  | EmptyString => [EmptyString]
  | String c s' =>
      if Ascii.eqb c sep then EmptyString :: Split s' sep
      else
        match Split s' sep with
        | piece :: pieces => String c piece :: pieces
        | [] => [String c EmptyString]
        end
  end.

(** [strings.Count(s, sep)] for a one-byte separator. *)
Fixpoint Count (s : string) (sep : ascii) : nat :=
  match s with
  | EmptyString => 0
  | String c s' => (if Ascii.eqb c sep then 1 else 0) + Count s' sep
  end.

Definition lower (c : ascii) : ascii :=
  let n := nat_of_ascii c in
  if (65 <=? n)%nat && (n <=? 90)%nat then ascii_of_nat (n + 32) else c.

(** [strings.ToLower(s)] on the letters A to Z.  The middleware compares the
    result with an ASCII word, and no character outside A to Z lowers to one
    of its letters, so the other case mappings play no part. *)
Fixpoint ToLower (s : string) : string :=
  match s with
  | EmptyString => EmptyString
  | String c s' => String (lower c) (ToLower s')
  end.

End strings.

Module middleware.

(** How the middleware leaves the request: aborted with a response, or
    passed on with the claims stored in the context under
    [ContextKeyClaims]. *)
Inductive Outcome : Type :=
| Abort (r : handlers.Response)
| Next (ctx : handlers.ContextValue).

Section WithExternals.
Context {P : JWTPrimitives} {D : TokenDecoder}.

(** [AuthRequired]; [authHeader] is [c.GetHeader("Authorization")], empty
    when the header is missing. *)
Definition AuthRequired (svc : services.AuthService) (now : time.Time)
           (authHeader : string) : Outcome :=
  if String.eqb authHeader "" then
    Abort (handlers.mkResponse handlers.StatusUnauthorized
             (handlers.H_error "Authorization header required"))
  else
    let parts := strings.Split authHeader " " in
    match parts with
    | [scheme; tokenString] =>
        if negb (String.eqb (strings.ToLower scheme) "bearer") then
          Abort (handlers.mkResponse handlers.StatusUnauthorized
                   (handlers.H_error "Invalid authorization header format"))
        else
          match services.ValidateToken svc now (decode tokenString) with
          | Err err =>
              Abort (handlers.mkResponse handlers.StatusUnauthorized
                       (handlers.H_error (Error err)))
          | Ok claims => Next (handlers.ClaimsValue claims)
          end
    | _ =>
        Abort (handlers.mkResponse handlers.StatusUnauthorized
                 (handlers.H_error "Invalid authorization header format"))
    end.

End WithExternals.

End middleware.

Module api.

Section WithExternals.
Context {P : JWTPrimitives} {D : TokenDecoder}.

(** The route [GET /api/v1/patient/search] of [SetupRouter]: the group's
    [AuthRequired] middleware, then [SearchPatientHandler]. *)
Definition patient_search (svc : services.AuthService) (db : DB)
           (now : time.Time) (authHeader : string)
           (bound : Result PatientSearchQuery.t) : handlers.Response :=
  match middleware.AuthRequired svc now authHeader with
  | middleware.Abort r => r
  | middleware.Next ctx => handlers.SearchPatientHandler db ctx bound
  end.

End WithExternals.

End api.

(* ================================================================== *)
(** * internal/config *)

Module strconv.

(** The value of a run of decimal digits, [None] when another byte occurs. *)
Fixpoint digits (acc : Z) (s : string) : option Z :=
  match s with
  | EmptyString => Some acc
  | String c s' =>
      if time.isDigit c then digits (acc * 10 + time.digit c)%Z s' else None
  end.

(** [strconv.Atoi(s)] on a 64-bit platform: an optional sign, then one or
    more decimal digits, the value within the range of [int]. *)
Definition Atoi (s : string) : Result Z :=
  let '(negative, body) :=
    match s with
    | String c rest =>
        if Ascii.eqb c "-" then (true, rest)
        else if Ascii.eqb c "+" then (false, rest)
        else (false, s)
    | EmptyString => (false, s)
    end in
  match body with
  | EmptyString => Err (errorString "strconv.Atoi: invalid syntax")
  | _ =>
      match digits 0 body with
      | None => Err (errorString "strconv.Atoi: invalid syntax")
      | Some n =>
          let v := if negative then (- n)%Z else n in
          if ((- 2 ^ 63 <=? v) && (v <=? 2 ^ 63 - 1))%Z then Ok v
          else Err (errorString "strconv.Atoi: value out of range")
      end
  end.

End strconv.

Module config.

(** [config.Config]. *)
Record Config : Type := mkConfig {
  DBHost : string;
  DBPort : string;
  DBUser : string;
  DBPassword : string;
  DBName : string;
  DBSSLMode : string;
  JWTSecret : string;
  JWTExpiry : time.Duration;
  ServerPort : string
}.

(** The process environment, as [os.LookupEnv] reads it after the optional
    [.env] file has been loaded. *)
Definition Env : Type := string -> option string.

(** [getEnv(key, fallback)]. *)
Definition getEnv (env : Env) (key fallback : string) : string :=
  match env key with
  | Some value => value
  | None => fallback
  end.

(** Multiplication of two [int64] (a [time.Duration] by another), with its
    wrap-around. *)
Definition mul_int64 (a b : Z) : Z :=
  ((a * b + 2 ^ 63) mod 2 ^ 64 - 2 ^ 63)%Z.

(** [Load]; its error is always nil. *)
Definition Load (env : Env) : Result Config :=
  let jwtExpiryHoursStr := getEnv env "JWT_EXPIRY_HOURS" "24" in
  let jwtExpiryHours :=
    match strconv.Atoi jwtExpiryHoursStr with
    | Ok n => n
    | Err _ => 24%Z
    end in
  Ok (mkConfig
        (getEnv env "DB_HOST" "db")
        (getEnv env "DB_PORT" "5432")
        (getEnv env "DB_USER" "postgres")
        (getEnv env "DB_PASSWORD" "password")
        (getEnv env "DB_NAME" "hospital_db")
        (getEnv env "DB_SSLMODE" "disable")
        (getEnv env "JWT_SECRET" "a_very_secret_key")
        (mul_int64 time.Hour jwtExpiryHours)
        (getEnv env "SERVER_PORT" "8080")).

(** [services.InitializeAuthService(cfg)] on a loaded configuration. *)
Definition AuthService_of (cfg : Config) : services.AuthService :=
  services.InitializeAuthService (JWTSecret cfg) (JWTExpiry cfg).

End config.

(* ================================================================== *)
(** * internal/database: patients *)

Module patients.

(** [CreatePatient]: [DB.Create(patient)].  The store numbers the row from
    the sequence [seq] of table [patients] when the primary key is zero, and
    refuses a duplicate primary key or a duplicate [patient_hn] (the unique
    index [idx_hospital_hn] is declared on that column alone).  Returned: the
    struct as stored, the new store and the new sequence value. *)
Definition CreatePatient (db : DB) (seq : N) (patient : Patient.t)
  : Result Patient.t * DB * N :=
  match write_fault db with
  | Some e => (Err e, db, seq)
  | None =>
      let id := if N.eqb (Patient.ID patient) 0
                then N.succ seq else Patient.ID patient in
      let seq' := if N.eqb (Patient.ID patient) 0 then N.succ seq else seq in
      if existsb (fun p => N.eqb (Patient.ID p) id
                           || String.eqb (Patient.PatientHN p)
                                         (Patient.PatientHN patient))
                 (patient_rows db)
      then (Err (errorString
                   "duplicate key value violates unique constraint"),
            db, seq')
      else
        let row :=
          Patient.mk id (Patient.HospitalID patient)
                     (Patient.PatientHN patient)
                     (Patient.FirstNameTH patient)
                     (Patient.MiddleNameTH patient)
                     (Patient.LastNameTH patient)
                     (Patient.FirstNameEN patient)
                     (Patient.MiddleNameEN patient)
                     (Patient.LastNameEN patient)
                     (Patient.DateOfBirth patient)
                     (Patient.NationalID patient)
                     (Patient.PassportID patient)
                     (Patient.PhoneNumber patient)
                     (Patient.Email patient)
                     (Patient.Gender patient) in
        (Ok row,
         mkDB (staff_rows db) (patient_rows db ++ [row])%list
              (staff_seq db) (read_fault db) (write_fault db),
         seq')
  end.

End patients.

(* ================================================================== *)
(** * More vocabulary and sample data *)

Module more.

(** No backslash in the string. *)
Fixpoint no_backslash (s : string) : bool :=
  match s with
  | EmptyString => true
  | String c s' => negb (Ascii.eqb c "\") && no_backslash s'
  end.

(** What follows each [%] and each [_] of the value starts at a
    character. *)
Fixpoint after_wildcards (s : string) : bool :=
  match s with
  | EmptyString => true
  | String c s' =>
      (if Ascii.eqb c "%" || Ascii.eqb c "_" then sql.boundary s' else true)
      && after_wildcards s'
  end.

(** The value starts at a character and so does what follows its
    wildcards: it is so in every UTF-8 text, where [%] and [_] are
    characters of their own. *)
Definition well_placed (s : string) : bool :=
  sql.boundary s && after_wildcards s.

(** A value that is not text: an underscore and a stray continuation
    byte. *)
Definition stray_value : string :=
  String "_" (String (ascii_of_nat 128) EmptyString).

(** The criteria that only ever add a condition of their own: the exact
    fields and the date of birth. *)
Definition plain_criterion (f : spec.Field) : bool :=
  match f with
  | spec.NationalID | spec.PassportID | spec.DateOfBirth
  | spec.PhoneNumber | spec.Email => true
  | _ => false
  end.

(** The two variants of each name component. *)
Definition partner (f : spec.Field) : option spec.Field :=
  match f with
  | spec.FirstNameTH => Some spec.FirstNameEN
  | spec.FirstNameEN => Some spec.FirstNameTH
  | spec.MiddleNameTH => Some spec.MiddleNameEN
  | spec.MiddleNameEN => Some spec.MiddleNameTH
  | spec.LastNameTH => Some spec.LastNameEN
  | spec.LastNameEN => Some spec.LastNameTH
  | _ => None
  end.

(** The value of a criterion field. *)
Definition get (f : spec.Field) (q : PatientSearchQuery.t) : option string :=
  match f with
  | spec.NationalID => PatientSearchQuery.NationalID q
  | spec.PassportID => PatientSearchQuery.PassportID q
  | spec.FirstNameTH => PatientSearchQuery.FirstNameTH q
  | spec.FirstNameEN => PatientSearchQuery.FirstNameEN q
  | spec.MiddleNameTH => PatientSearchQuery.MiddleNameTH q
  | spec.MiddleNameEN => PatientSearchQuery.MiddleNameEN q
  | spec.LastNameTH => PatientSearchQuery.LastNameTH q
  | spec.LastNameEN => PatientSearchQuery.LastNameEN q
  | spec.DateOfBirth => PatientSearchQuery.DateOfBirth q
  | spec.PhoneNumber => PatientSearchQuery.PhoneNumber q
  | spec.Email => PatientSearchQuery.Email q
  end.

(** Day number of the first of January. *)
Definition yearStart (y : Z) : Z := time.daysSinceEpoch y 1 1.

(** The staff table keeps user names and primary keys unique. *)
Definition staff_unique (db : DB) : Prop :=
  NoDup (map Staff.Username (staff_rows db))
  /\ NoDup (map Staff.ID (staff_rows db)).

(** The hospital number of a staff row is the one its hospital name
    resolves to. *)
Definition hospital_consistent (s : Staff.t) : Prop :=
  database.GetHospitalIDByName (Staff.HospitalName s)
  = Ok (Staff.HospitalID s).

(** A decoder that knows one token text. *)
Definition decoder (text : string) (tok : jwt.TokenString) : TokenDecoder :=
  {| decode := fun s =>
       if String.eqb s text then tok else jwt.Undecodable s |}.

(** The token of [sample.alice], issued at [sample.t1]. *)
Definition alice_token : jwt.TokenString :=
  match services.GenerateToken (P := sample.primitives)
          sample.svc sample.t1 sample.t1 sample.alice with
  | Ok tok => tok
  | Err _ => jwt.Undecodable ""
  end.

Definition alice_decoder : TokenDecoder := decoder "alice.token" alice_token.

(** An environment that sets the expiry to 72 hours and nothing else. *)
Definition env72 : config.Env :=
  fun key => if String.eqb key "JWT_EXPIRY_HOURS" then Some "72" else None.

(** The sample store with its connection lost. *)
Definition broken_db : DB :=
  mkDB (staff_rows sample.db) (patient_rows sample.db) (staff_seq sample.db)
       (Some (errorString "connection refused")) None.

Definition patientC : Patient.t :=
  Patient.mk 0 1 "HN0099" "th-e" "" "th-f" "Carol" "" "Dee"
             (Some (time.Date 2001 2 3)%Z) "N9" "" "0800000000"
             "carol@example.com" "F".

(** Two patients of hospital 1 with Thai names, and a store that holds
    them next to a patient of hospital 2. *)
Definition patientT : Patient.t :=
  Patient.mk 7 1 "HN0100" "สมหมายไท" "" "ทดสอบไท" "Multi" "" "Criteria"
             None "NIDMULTI999" "" "0898765432" "multi@example.com" "M".

Definition patientU : Patient.t :=
  Patient.mk 8 1 "HN0101" "สมชาย" "" "ใจดี" "Somchai" "" "Jaidii"
             None "NIDOTHER000" "" "0812345678" "somchai@example.com" "M".

Definition thai_db : DB :=
  mkDB [sample.alice] [patientT; patientU; sample.patientB] 1 None None.

(** Both variants of the first name, only the English one matching. *)
Definition both_variants : PatientSearchQuery.t :=
  spec.set spec.FirstNameTH (Some "ZZZ")
           (spec.set spec.FirstNameEN (Some "Multi") sample.no_criteria).

(** A Thai first name with one character left open. *)
Definition thai_wildcard : PatientSearchQuery.t :=
  spec.set spec.FirstNameTH (Some "สม_มาย") sample.no_criteria.

(** A patient of hospital 2 with the record number of [sample.patientA]. *)
Definition patientD : Patient.t :=
  Patient.mk 0 2 "HN0001" "th-g" "" "th-h" "Dan" "" "Eff"
             None "N7" "" "0800000001" "dan@example.com" "M".

End more.

(* ================================================================== *)
(** * Properties of the store model *)

Section StoreFacts.

Lemma like_percent (p t : string) :
  sql.like (String "%" p) t = sql.like p t || sql.later (sql.like p) t.
Proof. reflexivity. Qed.

Lemma later_cons (f : string -> bool) (c : ascii) (t : string) :
  sql.later f (String c t) = (sql.boundary t && f t) || sql.later f t.
Proof. reflexivity. Qed.

(** What holds at a character boundary further on holds later. *)
Lemma later_reach (f : string -> bool) (c : ascii) (a s : string) :
  sql.boundary s = true -> f s = true ->
  sql.later f (String c (a ++ s)) = true.
Proof.
  intros Hb Hf. revert c.
  induction a as [|d a IH]; intros c; cbn [append]; rewrite later_cons.
  - now rewrite Hb, Hf.
  - rewrite (IH d). apply orb_true_r.
Qed.

Lemma like_percent_alone (t : string) : sql.like "%" t = true.
Proof.
  rewrite like_percent. destruct t as [|c t]; [reflexivity|].
  apply orb_true_iff. right. revert c.
  induction t as [|d t IH]; intros c; rewrite later_cons.
  - reflexivity.
  - rewrite (IH d). apply orb_true_r.
Qed.

Lemma like_literal (c : ascii) (p t : string) :
  spec.wildcard c = false ->
  sql.like (String c p) t
  = match t with
    | EmptyString => false
    | String x t' => Ascii.eqb x c && sql.like p t'
    end.
Proof.
  unfold spec.wildcard. intros Hw.
  apply orb_false_iff in Hw as [Hw Hbs].
  apply orb_false_iff in Hw as [Hpc Hus].
  cbn [sql.like]. rewrite Hpc, Hus, Hbs. destruct t; reflexivity.
Qed.

Lemma like_plain_prefix (v t : string) :
  spec.plain v = true ->
  sql.like (v ++ "%") t = String.prefix v t.
Proof.
  revert t. induction v as [|c v IH]; intros t Hp.
  - cbn [append]. rewrite like_percent_alone. destruct t; reflexivity.
  - cbn [spec.plain] in Hp. apply andb_true_iff in Hp as [Hc Hv].
    apply negb_true_iff in Hc.
    cbn [append]. rewrite (like_literal _ _ _ Hc).
    destruct t as [|x t]; [reflexivity|].
    cbn [String.prefix]. rewrite (IH t Hv).
    destruct (ascii_dec c x) as [Heq|Hneq].
    + subst x. now rewrite Ascii.eqb_refl.
    + assert (Hxc : Ascii.eqb x c = false)
        by (apply Ascii.eqb_neq; congruence).
      now rewrite Hxc.
Qed.

(** A text that begins with a non-empty value begins where the value does. *)
Lemma prefix_boundary (c : ascii) (v t : string) :
  String.prefix (String c v) t = true ->
  sql.boundary t = sql.boundary (String c v).
Proof.
  destruct t as [|x t]; cbn [String.prefix]; [discriminate|].
  destruct (ascii_dec c x) as [->|]; [reflexivity | discriminate].
Qed.

(** Without wildcards in the value, the LIKE of the search is a substring
    test. *)
Lemma like_anywhere_contains (v t : string) :
  spec.plain v = true ->
  sql.boundary v = true ->
  spec.like_anywhere v t = spec.contains v t.
Proof.
  intros Hp Hb. unfold spec.like_anywhere. cbn [append].
  rewrite like_percent, (like_plain_prefix v t Hp).
  destruct v as [|c v].
  { cbn [append]. destruct t as [|x t]; [reflexivity|].
    cbn [spec.contains String.prefix orb]. reflexivity. }
  assert (Hlater : forall s,
            sql.later (sql.like (String c v ++ "%")) s
            = match s with
              | EmptyString => false
              | String _ s' => spec.contains (String c v) s'
              end).
  { induction s as [|x s IH]; [reflexivity|].
    rewrite later_cons, IH, (like_plain_prefix _ s Hp).
    destruct (String.prefix (String c v) s) eqn:Hpre.
    - rewrite (prefix_boundary c v s Hpre), Hb.
      destruct s; cbn [spec.contains]; now rewrite Hpre.
    - rewrite andb_false_r.
      destruct s; cbn [spec.contains]; now rewrite Hpre. }
  rewrite Hlater. destruct t; reflexivity.
Qed.

Lemma prefix_split (v t : string) :
  String.prefix v t = true <-> exists b, t = v ++ b.
Proof.
  revert t. induction v as [|c v IH]; intros t.
  - split; [intros _; exists t; reflexivity | intros _; destruct t; reflexivity].
  - destruct t as [|x t]; cbn [String.prefix append].
    + split; [discriminate | intros [b Hb]; discriminate].
    + destruct (ascii_dec c x) as [->|Hne].
      * rewrite IH. split; intros [b Hb]; exists b; congruence.
      * split; [discriminate | intros [b Hb]; congruence].
Qed.

(** [spec.contains] is the substring relation. *)
Lemma contains_split (v t : string) :
  spec.contains v t = true <-> exists a b, t = a ++ v ++ b.
Proof.
  induction t as [|c t IH]; cbn [spec.contains].
  - rewrite orb_false_r, prefix_split. split.
    + intros [b Hb]. exists "", b. exact Hb.
    + intros [a [b Hab]]. destruct a; cbn [append] in Hab; [|discriminate].
      exists b. exact Hab.
  - rewrite orb_true_iff, prefix_split, IH. split.
    + intros [[b Hb] | [a [b Hab]]].
      * exists "", b. exact Hb.
      * exists (String c a), b. cbn [append]. congruence.
    + intros [a [b Hab]]. destruct a as [|x a]; cbn [append] in Hab.
      * left. exists b. exact Hab.
      * right. exists a, b. congruence.
Qed.

Lemma forallb_Where (p : Patient.t) (q : sql.Query) (c : sql.Cond) :
  forallb (sql.holds p) (sql.Where q c)
  = forallb (sql.holds p) q && sql.holds p c.
Proof.
  unfold sql.Where. rewrite forallb_app. cbn [forallb].
  now rewrite andb_true_r.
Qed.

Lemma forallb_exact (p : Patient.t) (q : sql.Query) (c : sql.Column)
      (f : option string) :
  forallb (sql.holds p)
          (if database.given f
           then sql.Where q (sql.col_eq c (database.deref f)) else q)
  = forallb (sql.holds p) q && spec.exact f (sql.column c p).
Proof.
  unfold database.given, spec.exact, spec.supplied.
  destruct f as [v|]; cbn [negb database.deref].
  - destruct (String.eqb v ""); cbn [negb].
    + now rewrite andb_true_r.
    + now rewrite forallb_Where.
  - now rewrite andb_true_r.
Qed.

Lemma forallb_name_block (p : Patient.t) (q : sql.Query)
      (cTH cEN : sql.Column) (th en : option string) :
  forallb (sql.holds p) (database.name_block q cTH cEN th en)
  = forallb (sql.holds p) q
    && spec.name_pair spec.like_anywhere th en
                      (sql.column cTH p) (sql.column cEN p).
Proof.
  unfold database.name_block, database.given, spec.name_pair,
    spec.supplied, spec.like_anywhere.
  destruct th as [a|], en as [b|]; cbn [database.deref];
    try destruct (String.eqb a ""); try destruct (String.eqb b "");
    cbn [negb andb]; rewrite ?forallb_Where, ?andb_true_r; reflexivity.
Qed.

Lemma forallb_born_on (p : Patient.t) (q : sql.Query) (f : option string) :
  forallb (sql.holds p)
          (if database.given f then
             match time.Parse_2006_01_02 (database.deref f) with
             | Ok dob => sql.Where q (sql.date_of_birth_eq dob)
             | Err _ => q
             end
           else q)
  = forallb (sql.holds p) q && spec.born_on f (Patient.DateOfBirth p).
Proof.
  unfold database.given, spec.born_on, spec.supplied.
  destruct f as [v|]; cbn [database.deref].
  - destruct (String.eqb v ""); cbn [negb].
    + now rewrite andb_true_r.
    + destruct (time.Parse_2006_01_02 v) as [d|e].
      * now rewrite forallb_Where.
      * now rewrite andb_true_r.
  - now rewrite andb_true_r.
Qed.

(** A row passes the query built by [SearchPatients] exactly when it is in
    the caller's hospital and meets every supplied criterion. *)
Lemma SearchPatients_query_holds (query : PatientSearchQuery.t) (T : N)
      (p : Patient.t) :
  forallb (sql.holds p) (database.SearchPatients_query query T)
  = N.eqb (Patient.HospitalID p) T
    && spec.matches spec.like_anywhere query p.
Proof.
  unfold database.SearchPatients_query, spec.matches. cbv zeta.
  rewrite !forallb_exact, forallb_born_on, !forallb_name_block,
    !forallb_exact, forallb_Where.
  cbn [forallb sql.holds sql.column andb].
  rewrite <- !andb_assoc. reflexivity.
Qed.

Lemma SearchPatients_filter (db : DB) (query : PatientSearchQuery.t)
      (T : N) :
  read_fault db = None ->
  database.SearchPatients db query T
  = Ok (filter (fun p => N.eqb (Patient.HospitalID p) T
                         && spec.matches spec.like_anywhere query p)
               (patient_rows db)).
Proof.
  intros Hf. unfold database.SearchPatients, sql.select. rewrite Hf.
  f_equal. apply filter_ext. intros p.
  apply SearchPatients_query_holds.
Qed.

Lemma name_pair_plain (th en : option string) (a b : string) :
  spec.plain_value th = true ->
  spec.plain_value en = true ->
  spec.name_pair spec.like_anywhere th en a b
  = spec.name_pair spec.contains th en a b.
Proof.
  unfold spec.name_pair, spec.supplied, spec.plain_value.
  intros Hth Hen.
  destruct th as [x|], en as [y|];
    try (apply andb_true_iff in Hth as [Hth Hthb]);
    try (apply andb_true_iff in Hen as [Hen Henb]);
    try destruct (String.eqb x ""); try destruct (String.eqb y "");
    rewrite ?like_anywhere_contains by assumption; reflexivity.
Qed.

Lemma matches_plain (q : PatientSearchQuery.t) (p : Patient.t) :
  spec.plain_names q = true ->
  spec.matches spec.like_anywhere q p = spec.matches spec.contains q p.
Proof.
  unfold spec.plain_names. intros Hp.
  repeat (apply andb_true_iff in Hp as [Hp ?]).
  unfold spec.matches.
  rewrite !name_pair_plain by assumption. reflexivity.
Qed.

Lemma filter_twice {A : Type} (f g : A -> bool) (l : list A) :
  filter g (filter f l) = filter (fun x => f x && g x) l.
Proof.
  induction l as [|x l IH]; [reflexivity|].
  cbn [filter]. destruct (f x); cbn [andb filter]; now rewrite IH.
Qed.

(** The result of a search depends on the query only through the
    criteria it imposes on a row. *)
Lemma SearchPatients_ext (db : DB) (q q' : PatientSearchQuery.t) (T : N) :
  (forall p, spec.matches spec.like_anywhere q p
             = spec.matches spec.like_anywhere q' p) ->
  database.SearchPatients db q T = database.SearchPatients db q' T.
Proof.
  intros Hm. unfold database.SearchPatients, sql.select.
  destruct (read_fault db); [reflexivity|].
  f_equal. apply filter_ext. intros p.
  now rewrite !SearchPatients_query_holds, Hm.
Qed.

(** The date-of-birth criterion is one conjunct among the others. *)
Lemma matches_without_dob (m : string -> string -> bool)
      (q : PatientSearchQuery.t) (p : Patient.t) :
  spec.matches m q p
  = spec.matches m (spec.set spec.DateOfBirth None q) p
    && spec.born_on (PatientSearchQuery.DateOfBirth q)
                    (Patient.DateOfBirth p).
Proof.
  unfold spec.matches. destruct q; cbn.
  change (spec.born_on None (Patient.DateOfBirth p)) with true.
  btauto.
Qed.

End StoreFacts.

(* ================================================================== *)
(** * Patient search *)

(** C1 (tenant scoping).  Whatever the criteria, every patient returned by
    [SearchPatients] for hospital [T] has [HospitalID = T]; and every patient
    that [SearchPatientHandler] sends back belongs to the hospital named in
    the caller's validated claims. *)
Theorem search_results_in_tenant :
  (forall (db : DB) (query : PatientSearchQuery.t) (T : N)
          (patients : list Patient.t),
      database.SearchPatients db query T = Ok patients ->
      Forall (fun p => Patient.HospitalID p = T) patients)
  /\
  (forall (db : DB) (claims : Claims.t) (bound : Result PatientSearchQuery.t)
          (code : N) (patients : list Patient.t),
      handlers.SearchPatientHandler db (handlers.ClaimsValue claims) bound
      = handlers.mkResponse code (handlers.PatientsBody patients) ->
      Forall (fun p => Patient.HospitalID p = Claims.HospitalID claims)
             patients).
Proof.
  assert (Hsearch :
    forall db query T patients,
      database.SearchPatients db query T = Ok patients ->
      Forall (fun p => Patient.HospitalID p = T) patients).
  { intros db query T patients Hs.
    unfold database.SearchPatients in Hs.
    destruct (read_fault db); [discriminate|].
    injection Hs as <-. apply Forall_forall. intros p Hin.
    unfold sql.select in Hin. apply filter_In in Hin as [_ Hq].
    rewrite SearchPatients_query_holds in Hq.
    apply andb_true_iff in Hq as [Hh _]. now apply N.eqb_eq. }
  split; [exact Hsearch|].
  intros db claims bound code patients Hr.
  unfold handlers.SearchPatientHandler in Hr.
  destruct bound as [q|e]; [|discriminate].
  destruct (database.SearchPatients db q (Claims.HospitalID claims))
    as [ps|e] eqn:Hs; [|discriminate].
  apply Hsearch in Hs.
  destruct ps; injection Hr as _ <-; [constructor | exact Hs].
Qed.

(** A staff member of hospital 2 searching a national ID that a patient of
    each hospital carries. *)
Lemma search_results_in_tenant_witness :
  database.SearchPatients sample.db (sample.by_national_id "N1") 2
  = Ok [sample.patientB]
  /\ Forall (fun p => Patient.HospitalID p = 2%N) [sample.patientB].
Proof.
  split; [reflexivity|].
  apply (proj1 search_results_in_tenant
               sample.db (sample.by_national_id "N1") 2%N).
  reflexivity.
Defined.

(** C6, as the specification words it, fails: a first-name value with the
    wildcard [_] selects a patient whose name does not contain the value. *)
Lemma name_match_is_not_substring :
  database.SearchPatients sample.db sample.wildcard_query 1
  = Ok [sample.patientA]
  /\ spec.matches spec.contains sample.wildcard_query sample.patientA = false.
Proof. split; reflexivity. Qed.

(** C6 (search semantics, amended).  On a reachable store the search returns
    exactly the rows of the caller's hospital that meet the conjunction of
    the field groups, where a field counts as supplied when present and not
    empty, exact fields compare by equality, and a name pair asks
    [field LIKE '%' + value + '%'] of either variant when both are supplied
    and of the single one otherwise; in the pattern [%] stands for any run
    of characters and [_] for any one character.  When no supplied name
    value has a LIKE wildcard ([%], [_], backslash), and each is text (starts
    at a character), the name test is substring containment. *)
Theorem search_is_conjunction_of_groups :
  forall (db : DB) (query : PatientSearchQuery.t) (T : N),
    read_fault db = None ->
    exists patients,
      database.SearchPatients db query T = Ok patients
      /\ (forall p,
             In p patients <->
             In p (patient_rows db)
             /\ Patient.HospitalID p = T
             /\ spec.matches spec.like_anywhere query p = true)
      /\ (spec.plain_names query = true ->
          forall p,
            In p patients <->
            In p (patient_rows db)
            /\ Patient.HospitalID p = T
            /\ spec.matches spec.contains query p = true).
Proof.
  intros db query T Hf.
  eexists. split; [apply (SearchPatients_filter db query T Hf)|].
  assert (Hin : forall p,
    In p (filter (fun p => N.eqb (Patient.HospitalID p) T
                           && spec.matches spec.like_anywhere query p)
                 (patient_rows db)) <->
    In p (patient_rows db) /\ Patient.HospitalID p = T
    /\ spec.matches spec.like_anywhere query p = true).
  { intros p. rewrite filter_In, andb_true_iff, N.eqb_eq. reflexivity. }
  split; [exact Hin|].
  intros Hplain p. rewrite Hin, (matches_plain query p Hplain). reflexivity.
Qed.

(** The store with Thai names.  Both variants of the first name supplied,
    the English one alone matching: the patient is found (OR across the
    pair), the other patient is not.  A Thai value with [_] for one
    character finds the patient whose name has a character there. *)
Lemma search_is_conjunction_of_groups_witness :
  (exists patients,
      database.SearchPatients more.thai_db more.both_variants 1 = Ok patients
      /\ In more.patientT patients
      /\ ~ In more.patientU patients)
  /\
  (exists patients,
      database.SearchPatients more.thai_db more.thai_wildcard 1 = Ok patients
      /\ In more.patientT patients
      /\ ~ In more.patientU patients).
Proof.
  split.
  - destruct (search_is_conjunction_of_groups
                more.thai_db more.both_variants 1%N eq_refl)
      as (ps & Hs & _ & Hplain).
    specialize (Hplain eq_refl).
    exists ps. split; [exact Hs|]. split.
    + apply Hplain. split; [left; reflexivity|]. split; reflexivity.
    + intros Hin. apply Hplain in Hin as (_ & _ & Hm). discriminate Hm.
  - destruct (search_is_conjunction_of_groups
                more.thai_db more.thai_wildcard 1%N eq_refl)
      as (ps & Hs & Hlike & _).
    exists ps. split; [exact Hs|]. split.
    + apply Hlike. split; [left; reflexivity|]. split; reflexivity.
    + intros Hin. apply Hlike in Hin as (_ & _ & Hm). discriminate Hm.
Defined.

(** C7 (date of birth).  A date-of-birth value that [time.Parse] rejects
    changes nothing: the search returns what the same query without the
    field returns, and with a reachable store it returns a result.  A value
    that parses to the date [d] keeps, of that result, exactly the rows
    whose date of birth is [d]. *)
Theorem malformed_date_of_birth_is_dropped :
  forall (db : DB) (query : PatientSearchQuery.t) (T : N) (v : string),
    PatientSearchQuery.DateOfBirth query = Some v ->
    (forall e, time.Parse_2006_01_02 v = Err e ->
       database.SearchPatients db query T
       = database.SearchPatients db (spec.set spec.DateOfBirth None query) T
       /\ (read_fault db = None ->
           exists patients,
             database.SearchPatients db query T = Ok patients))
    /\
    (forall d, time.Parse_2006_01_02 v = Ok d ->
       database.SearchPatients db query T
       = let? patients :=
           database.SearchPatients db (spec.set spec.DateOfBirth None query) T
         in Ok (filter (fun p =>
                          match Patient.DateOfBirth p with
                          | Some x => Z.eqb x d
                          | None => false
                          end) patients)).
Proof.
  intros db query T v Hv. split.
  - intros e He. split.
    + apply SearchPatients_ext. intros p.
      rewrite (matches_without_dob _ query p), Hv.
      unfold spec.born_on, spec.supplied.
      destruct (String.eqb v ""); [|rewrite He]; apply andb_true_r.
    + intros Hf. rewrite (SearchPatients_filter db query T Hf).
      eexists; reflexivity.
  - intros d Hd.
    assert (Hne : String.eqb v "" = false).
    { destruct v; [discriminate Hd | reflexivity]. }
    unfold database.SearchPatients at 1 2. cbn [bind].
    destruct (read_fault db) as [e|]; [reflexivity|].
    cbn [bind]. f_equal. unfold sql.select.
    rewrite filter_twice. apply filter_ext. intros p.
    rewrite !SearchPatients_query_holds.
    rewrite (matches_without_dob _ query p), Hv, andb_assoc.
    unfold spec.born_on, spec.supplied. now rewrite Hne, Hd.
Qed.

(** A date in the wrong layout, and one in the right layout. *)
Lemma malformed_date_of_birth_is_dropped_witness :
  (database.SearchPatients sample.db (sample.by_date_of_birth "15/05/1990") 1
   = database.SearchPatients
       sample.db
       (spec.set spec.DateOfBirth None (sample.by_date_of_birth "15/05/1990"))
       1
   /\ (read_fault sample.db = None ->
       exists patients,
         database.SearchPatients
           sample.db (sample.by_date_of_birth "15/05/1990") 1 = Ok patients))
  /\ database.SearchPatients sample.db (sample.by_date_of_birth "1990-05-15") 1
     = Ok [sample.patientA].
Proof.
  split.
  - apply (proj1 (malformed_date_of_birth_is_dropped
                    sample.db (sample.by_date_of_birth "15/05/1990") 1%N
                    "15/05/1990" eq_refl)
                 (sentinel time_ParseError)).
    reflexivity.
  - rewrite (proj2 (malformed_date_of_birth_is_dropped
                      sample.db (sample.by_date_of_birth "1990-05-15") 1%N
                      "1990-05-15" eq_refl)
                   (time.Date 1990 5 15) eq_refl).
    reflexivity.
Defined.

(** C10 (empty means absent).  For every criterion field, a query that
    carries the empty string in that field and the query that omits the
    field give the same result, store failure included. *)
Theorem empty_criterion_is_absent :
  forall (db : DB) (query : PatientSearchQuery.t) (T : N) (f : spec.Field),
    database.SearchPatients db (spec.set f (Some "") query) T
    = database.SearchPatients db (spec.set f None query) T.
Proof.
  intros db query T f. apply SearchPatients_ext. intros p.
  destruct f; reflexivity.
Qed.

(* ================================================================== *)
(** * Authentication *)

Section AuthFacts.

Lemma filter_none {A : Type} (f : A -> bool) (l : list A) :
  (forall x, In x l -> f x = false) -> filter f l = [].
Proof.
  induction l as [|x l IH]; intros Hall; [reflexivity|].
  cbn [filter]. rewrite (Hall x (or_introl eq_refl)).
  apply IH. intros y Hy. apply Hall. now right.
Qed.

(** A user name carried by no row is reported as [ErrRecordNotFound]. *)
Lemma FindStaffByUsername_absent (db : DB) (username : string) :
  read_fault db = None ->
  (forall s, In s (staff_rows db) -> Staff.Username s <> username) ->
  database.FindStaffByUsername db username
  = Err (sentinel gorm_ErrRecordNotFound).
Proof.
  intros Hf Hnone. unfold database.FindStaffByUsername. rewrite Hf.
  rewrite filter_none; [reflexivity|].
  intros s Hs. apply String.eqb_neq. now apply Hnone.
Qed.

(** The resolver knows exactly two names. *)
Lemma GetHospitalIDByName_unknown (name : string) :
  name <> "Hospital A" -> name <> "Hospital B" ->
  database.GetHospitalIDByName name
  = Err (errorString ("hospital not found: " ++ name)).
Proof.
  intros HA HB. unfold database.GetHospitalIDByName.
  apply String.eqb_neq in HA, HB. now rewrite HA, HB.
Qed.

End AuthFacts.

(** C2 (generic credential failure).  A login whose user name is carried by
    no staff row, and a login whose user exists and passes the hospital
    check but whose password does not verify against the stored hash, both
    fail, with one and the same error, "invalid username or password". *)
Theorem invalid_credentials_are_uniform :
  forall (P : JWTPrimitives) (H : PasswordHasher)
         (svc : services.AuthService) (db : DB) (now now' : time.Time)
         (loginReq : StaffLoginRequest.t),
    (read_fault db = None ->
     (forall s, In s (staff_rows db) ->
                Staff.Username s <> StaffLoginRequest.Username loginReq) ->
     services.AuthenticateStaff svc db now now' loginReq
     = Err (errorString "invalid username or password"))
    /\
    (forall (staff : Staff.t),
        database.FindStaffByUsername
          db (StaffLoginRequest.Username loginReq) = Ok staff ->
        database.GetHospitalIDByName (StaffLoginRequest.Hospital loginReq)
        = Ok (Staff.HospitalID staff) ->
        CheckPasswordHash (StaffLoginRequest.Password loginReq)
                          (Staff.PasswordHash staff) = false ->
        services.AuthenticateStaff svc db now now' loginReq
        = Err (errorString "invalid username or password")).
Proof.
  intros P H svc db now now' loginReq. split.
  - intros Hf Hnone. unfold services.AuthenticateStaff.
    now rewrite (FindStaffByUsername_absent db _ Hf Hnone).
  - intros staff Hfind Hhosp Hpw. unfold services.AuthenticateStaff.
    rewrite Hfind, Hhosp, N.eqb_refl, Hpw. reflexivity.
Qed.

(** An unknown user, and a known user with a wrong password. *)
Lemma invalid_credentials_are_uniform_witness :
  services.AuthenticateStaff (P := sample.primitives) (H := sample.hasher)
    sample.svc sample.db sample.t1 sample.t1
    (sample.login "bob" "pw123" "Hospital A")
  = Err (errorString "invalid username or password")
  /\
  services.AuthenticateStaff (P := sample.primitives) (H := sample.hasher)
    sample.svc sample.db sample.t1 sample.t1
    (sample.login "alice" "wrongpw" "Hospital A")
  = Err (errorString "invalid username or password").
Proof.
  split.
  - apply (proj1 (invalid_credentials_are_uniform
                    sample.primitives sample.hasher sample.svc sample.db
                    sample.t1 sample.t1
                    (sample.login "bob" "pw123" "Hospital A"))).
    + reflexivity.
    + intros s [<- | []]. discriminate.
  - apply (proj2 (invalid_credentials_are_uniform
                    sample.primitives sample.hasher sample.svc sample.db
                    sample.t1 sample.t1
                    (sample.login "alice" "wrongpw" "Hospital A"))
                 sample.alice); reflexivity.
Defined.

(** C5 (unresolvable hospital: a defect of the code).  [AuthenticateStaff]
    means to answer "invalid hospital specified" when the hospital name
    cannot be resolved, as [CreateStaffHandler] does in its own words; but
    it recognises the case by [gorm.ErrRecordNotFound], which
    [GetHospitalIDByName] never returns.  So for the known user alice and
    the unknown "Hospital C" the login fails with "error verifying
    hospital", while registration under the same hospital name is answered
    with "Invalid hospital specified". *)
Lemma unknown_hospital_is_not_invalid_hospital_specified :
  database.GetHospitalIDByName "Hospital C"
  = Err (errorString "hospital not found: Hospital C")
  /\ errors.Is (errorString "hospital not found: Hospital C")
               gorm_ErrRecordNotFound = false
  /\ services.AuthenticateStaff (P := sample.primitives) (H := sample.hasher)
       sample.svc sample.db sample.t1 sample.t1
       (sample.login "alice" "pw123" "Hospital C")
     = Err (errorString "error verifying hospital")
  /\ services.AuthenticateStaff (P := sample.primitives) (H := sample.hasher)
       sample.svc sample.db sample.t1 sample.t1
       (sample.login "alice" "pw123" "Hospital C")
     <> Err (errorString "invalid hospital specified")
  /\ fst (handlers.CreateStaffHandler (H := sample.hasher)
            sample.db sample.t1
            (Ok (StaffCreateRequest.mk "carol" "pw789" "Hospital C")))
     = handlers.mkResponse handlers.StatusBadRequest
         (handlers.H_error
            "Invalid hospital specified: hospital not found: Hospital C").
Proof.
  split; [reflexivity|]. split; [reflexivity|]. split; [reflexivity|].
  split; [discriminate | reflexivity].
Qed.

(** C9 (sanitized staff view).  Whenever [AuthenticateStaff] succeeds, the
    staff record it returns has an empty password hash; so has the record in
    the body of a successful login response, and the record in the body of
    a successful [CreateStaffHandler] response. *)
Theorem returned_staff_has_no_password_hash :
  forall (P : JWTPrimitives) (H : PasswordHasher),
    (forall (svc : services.AuthService) (db : DB) (now now' : time.Time)
            (loginReq : StaffLoginRequest.t)
            (token : jwt.TokenString) (staff : Staff.t),
        services.AuthenticateStaff svc db now now' loginReq
        = Ok (token, staff) ->
        Staff.PasswordHash staff = "")
    /\
    (forall (svc : services.AuthService) (db : DB) (now now' : time.Time)
            (bound : Result StaffLoginRequest.t) (code : N)
            (token : jwt.TokenString) (staff : Staff.t),
        handlers.LoginStaffHandler svc db now now' bound
        = handlers.mkResponse code (handlers.StaffLoginResponse token staff) ->
        Staff.PasswordHash staff = "")
    /\
    (forall (db db' : DB) (now : time.Time)
            (bound : Result StaffCreateRequest.t) (code : N)
            (staff : Staff.t),
        handlers.CreateStaffHandler db now bound
        = (handlers.mkResponse code (handlers.StaffBody staff), db') ->
        Staff.PasswordHash staff = "").
Proof.
  intros P H.
  assert (Hauth :
    forall svc db now now' loginReq token staff,
      services.AuthenticateStaff svc db now now' loginReq
      = Ok (token, staff) ->
      Staff.PasswordHash staff = "").
  { intros svc db now now' loginReq token staff Ha.
    unfold services.AuthenticateStaff in Ha.
    destruct (database.FindStaffByUsername _ _) as [s|e].
    2:{ destruct (errors.Is e _); discriminate. }
    destruct (database.GetHospitalIDByName _) as [id|e].
    2:{ destruct (errors.Is e _); discriminate. }
    destruct (negb (N.eqb _ _)); [discriminate|].
    destruct (negb (CheckPasswordHash _ _)); [discriminate|].
    destruct (services.GenerateToken _ _ _ _) as [tok|e];
      cbn [bind] in Ha; [|discriminate].
    injection Ha as _ <-. reflexivity. }
  split; [exact Hauth|]. split.
  - intros svc db now now' bound code token staff Hr.
    unfold handlers.LoginStaffHandler in Hr.
    destruct bound as [req|e]; [|discriminate].
    destruct (services.AuthenticateStaff svc db now now' req)
      as [[tok s]|e] eqn:Ha; [|discriminate].
    injection Hr as _ _ <-. exact (Hauth _ _ _ _ _ _ _ Ha).
  - intros db db' now bound code staff Hr.
    unfold handlers.CreateStaffHandler in Hr.
    destruct bound as [req|e]; [|discriminate].
    destruct (database.FindStaffByUsername _ _) as [s|e]; [discriminate|].
    destruct (negb (errors.Is e _)); [discriminate|].
    destruct (HashPassword _) as [h|e']; [|discriminate].
    destruct (database.GetHospitalIDByName _) as [id|e']; [|discriminate].
    destruct (database.CreateStaff _ _ _) as [[s|e'] d]; [|discriminate].
    injection Hr as _ <- _. reflexivity.
Qed.

(** A successful login and a successful registration; the row stored for
    the new staff member keeps its hash. *)
Lemma returned_staff_has_no_password_hash_witness :
  (exists token staff,
      services.AuthenticateStaff (P := sample.primitives) (H := sample.hasher)
        sample.svc sample.db sample.t1 sample.t1
        (sample.login "alice" "pw123" "Hospital A") = Ok (token, staff)
      /\ Staff.Username staff = "alice"
      /\ Staff.PasswordHash staff = "")
  /\
  (exists staff db',
      handlers.CreateStaffHandler (H := sample.hasher) sample.db sample.t1
        (Ok (StaffCreateRequest.mk "bob" "pw456" "Hospital B"))
      = (handlers.mkResponse handlers.StatusCreated
                             (handlers.StaffBody staff), db')
      /\ Staff.Username staff = "bob"
      /\ Staff.PasswordHash staff = ""
      /\ map Staff.PasswordHash (staff_rows db')
         = ["hashed:pw123"; "hashed:pw456"]).
Proof.
  split.
  - eexists; eexists. split; [reflexivity|]. split; [reflexivity|].
    eapply (proj1 (returned_staff_has_no_password_hash
                     sample.primitives sample.hasher)
                  sample.svc sample.db sample.t1 sample.t1
                  (sample.login "alice" "pw123" "Hospital A")).
    reflexivity.
  - eexists; eexists. split; [reflexivity|]. split; [reflexivity|].
    split; [|reflexivity].
    eapply (proj2 (proj2 (returned_staff_has_no_password_hash
                            sample.primitives sample.hasher))
                  sample.db _ sample.t1
                  (Ok (StaffCreateRequest.mk "bob" "pw456" "Hospital B"))).
    reflexivity.
Defined.

(* ================================================================== *)
(** * Session tokens *)

Section TokenFacts.
Context {P : JWTPrimitives}.

(** The expiry carried by a token is the requested time rounded down to a
    whole second. *)
Lemma Time_of_NewNumericDate (t : time.Time) :
  jwt.Time_of (jwt.NewNumericDate t) = (t - t mod time.Second)%Z.
Proof.
  unfold jwt.Time_of, jwt.NewNumericDate, time.Truncate, time.Second.
  pose proof (Z.div_mod t 1000000000 ltac:(lia)) as Hdm.
  replace (t - t mod 1000000000)%Z with (t / 1000000000 * 1000000000)%Z
    by lia.
  rewrite Z.div_mul by lia. reflexivity.
Qed.

Lemma expires_at_bounds (svc : services.AuthService) (now : time.Time) :
  (spec.expires_at svc now <= now + services.jwtExpiry svc
   < spec.expires_at svc now + time.Second)%Z.
Proof.
  unfold spec.expires_at, time.Add. rewrite Time_of_NewNumericDate.
  pose proof (Z.mod_pos_bound (now + services.jwtExpiry svc) time.Second
                ltac:(reflexivity)).
  lia.
Qed.

(** A token string that names an HMAC algorithm and carries the keyed
    hash of its signing input passes the signature check; the answer then
    rests on the claims alone. *)
Lemma ValidateToken_Compact_HMAC (svc : services.AuthService)
      (t : time.Time) (sstr a : string) (h : Hash) (claims : Claims.t) :
  jwt.GetSigningMethod a = Some (jwt.SigningMethodHMAC h) ->
  services.ValidateToken
    svc t (jwt.Compact sstr (Some a) claims
                       (hmac h (services.jwtKey svc) sstr))
  = match jwt.Validate t claims with
    | None => Ok claims
    | Some err =>
        if errors.Is err jwt_ErrTokenExpired
        then Err (errorString "token is expired")
        else Err (errorString "invalid token")
    end.
Proof.
  intros Hm.
  unfold services.ValidateToken, jwt.ParseWithClaims, jwt.ParseUnverified.
  rewrite Hm.
  cbn [bind jwt.Method jwt.Signature jwt.TokenClaims jwt.Verify].
  rewrite String.eqb_refl.
  destruct (jwt.Validate t claims); reflexivity.
Qed.

(** Issuing always succeeds, the claims carry the staff record's identity,
    and the token validates under the same key exactly until its expiry. *)
Lemma ValidateToken_GenerateToken (svc : services.AuthService)
      (now now' : time.Time) (staff : Staff.t) :
  exists tok claims,
    services.GenerateToken svc now now' staff = Ok tok
    /\ Claims.UserID claims = Staff.ID staff
    /\ Claims.Username claims = Staff.Username staff
    /\ Claims.HospitalID claims = Staff.HospitalID staff
    /\ forall t,
         services.ValidateToken svc t tok
         = if (t <? spec.expires_at svc now)%Z
           then Ok claims
           else Err (errorString "token is expired").
Proof.
  eexists.
  exists (Claims.mk (Staff.ID staff) (Staff.Username staff)
                    (Staff.HospitalID staff)
                    (RegisteredClaims.mk
                       "" (services.Sprintf_d (Staff.ID staff)) []
                       (Some (jwt.NewNumericDate
                                (time.Add now (services.jwtExpiry svc))))
                       None (Some (jwt.NewNumericDate now')) "")).
  split; [reflexivity|].
  split; [reflexivity|]. split; [reflexivity|]. split; [reflexivity|].
  intros t.
  etransitivity;
    [apply (ValidateToken_Compact_HMAC svc t _ "HS256" SHA256);
     reflexivity|].
  unfold jwt.Validate, time.Before.
  cbn [Claims.Registered RegisteredClaims.ExpiresAt
       RegisteredClaims.NotBefore jwt.TokenClaims jwt.NewWithClaims].
  fold (spec.expires_at svc now).
  destruct (t <? spec.expires_at svc now)%Z; reflexivity.
Qed.

(** What [ValidateToken] answers on a token string that decodes. *)
Lemma ValidateToken_rejects (svc : services.AuthService) (t : time.Time)
      (tok : jwt.TokenString) (e : error) :
  services.ValidateToken svc t tok = Err e ->
  e = errorString "token is expired" \/ e = errorString "invalid token".
Proof.
  unfold services.ValidateToken.
  destruct (jwt.ParseWithClaims _ _ _) as [token|err].
  - destruct (negb (jwt.Valid token)); [|discriminate].
    intros [= <-]. now right.
  - destruct (errors.Is err jwt_ErrTokenExpired); intros [= <-];
      [now left | now right].
Qed.

End TokenFacts.

(** C3 (issue then validate).  For every staff identity, user name and
    hospital, issuing succeeds, and the token validates under the same
    configured key at every time before its expires-at (the issue time plus
    the configured expiry, in whole seconds), hence at every time that is a
    second or more short of the configured expiry, the issue time itself
    included when the expiry is at least a second.  The claims returned
    carry the same [UserID], [Username] and [HospitalID]. *)
Theorem validate_after_issue_round_trips :
  forall (P : JWTPrimitives) (svc : services.AuthService)
         (now now' : time.Time) (staff : Staff.t),
    exists tok claims,
      services.GenerateToken svc now now' staff = Ok tok
      /\ Claims.UserID claims = Staff.ID staff
      /\ Claims.Username claims = Staff.Username staff
      /\ Claims.HospitalID claims = Staff.HospitalID staff
      /\ (forall t, (t < spec.expires_at svc now)%Z ->
            services.ValidateToken svc t tok = Ok claims)
      /\ (forall t, (t + time.Second <= now + services.jwtExpiry svc)%Z ->
            services.ValidateToken svc t tok = Ok claims).
Proof.
  intros P svc now now' staff.
  destruct (ValidateToken_GenerateToken svc now now' staff)
    as (tok & claims & Hgen & Hid & Hname & Hhosp & Hval).
  assert (Hbefore : forall t, (t < spec.expires_at svc now)%Z ->
            services.ValidateToken svc t tok = Ok claims).
  { intros t Ht. rewrite Hval. apply Z.ltb_lt in Ht. now rewrite Ht. }
  exists tok, claims.
  split; [exact Hgen|]. split; [exact Hid|]. split; [exact Hname|].
  split; [exact Hhosp|]. split; [exact Hbefore|].
  intros t Ht. apply Hbefore.
  pose proof (expires_at_bounds svc now). lia.
Qed.

(** Alice's token, validated at the very time it was issued. *)
Lemma validate_after_issue_round_trips_witness :
  exists tok claims,
    services.GenerateToken (P := sample.primitives)
      sample.svc sample.t1 sample.t1 sample.alice = Ok tok
    /\ services.ValidateToken (P := sample.primitives)
         sample.svc sample.t1 tok = Ok claims
    /\ Claims.UserID claims = 1%N
    /\ Claims.Username claims = "alice"
    /\ Claims.HospitalID claims = 1%N.
Proof.
  destruct (validate_after_issue_round_trips
              sample.primitives sample.svc sample.t1 sample.t1 sample.alice)
    as (tok & claims & Hgen & Hid & Hname & Hhosp & Hbefore & _).
  exists tok, claims. split; [exact Hgen|]. split; [|auto].
  apply Hbefore. reflexivity.
Defined.

(** C4 (expiry is final).  For every issued token: validation at any time
    at or after its expires-at, and so at any time once the configured
    expiry has elapsed since issue, fails with "token is expired"; before
    expires-at it succeeds; and once it has failed as expired it fails as
    expired at every later time.  Nothing but the clock enters: the service
    has no operation that revokes or revives a token. *)
Theorem expired_token_stays_expired :
  forall (P : JWTPrimitives) (svc : services.AuthService)
         (now now' : time.Time) (staff : Staff.t),
    exists tok,
      services.GenerateToken svc now now' staff = Ok tok
      /\ (forall t, (spec.expires_at svc now <= t)%Z ->
            services.ValidateToken svc t tok
            = Err (errorString "token is expired"))
      /\ (forall t, (now + services.jwtExpiry svc <= t)%Z ->
            services.ValidateToken svc t tok
            = Err (errorString "token is expired"))
      /\ (forall t, (t < spec.expires_at svc now)%Z ->
            exists claims, services.ValidateToken svc t tok = Ok claims)
      /\ (forall t1 t2, (t1 <= t2)%Z ->
            services.ValidateToken svc t1 tok
            = Err (errorString "token is expired") ->
            services.ValidateToken svc t2 tok
            = Err (errorString "token is expired")).
Proof.
  intros P svc now now' staff.
  destruct (ValidateToken_GenerateToken svc now now' staff)
    as (tok & claims & Hgen & _ & _ & _ & Hval).
  assert (Hexp : forall t, (spec.expires_at svc now <= t)%Z ->
            services.ValidateToken svc t tok
            = Err (errorString "token is expired")).
  { intros t Ht. rewrite Hval. apply Z.ltb_ge in Ht. now rewrite Ht. }
  exists tok. split; [exact Hgen|]. split; [exact Hexp|]. split; [|split].
  - intros t Ht. apply Hexp.
    pose proof (expires_at_bounds svc now). lia.
  - intros t Ht. exists claims. rewrite Hval.
    apply Z.ltb_lt in Ht. now rewrite Ht.
  - intros t1 t2 Hle H1. apply Hexp.
    rewrite Hval in H1.
    destruct (t1 <? spec.expires_at svc now)%Z eqn:Hlt; [discriminate|].
    apply Z.ltb_ge in Hlt. lia.
Qed.

(** Alice's token, a day and a second after it was issued. *)
Lemma expired_token_stays_expired_witness :
  exists tok,
    services.GenerateToken (P := sample.primitives)
      sample.svc sample.t1 sample.t1 sample.alice = Ok tok
    /\ services.ValidateToken (P := sample.primitives)
         sample.svc sample.t_late tok
       = Err (errorString "token is expired").
Proof.
  destruct (expired_token_stays_expired
              sample.primitives sample.svc sample.t1 sample.t1 sample.alice)
    as (tok & Hgen & Hexp & _).
  exists tok. split; [exact Hgen|].
  apply Hexp. unfold sample.t_late, spec.expires_at. vm_compute. discriminate.
Defined.

(** C8 (one generic rejection).  A token string that does not decode, or
    whose header names no HMAC algorithm, or whose signature is not the
    keyed hash of its signing input under the configured key, is rejected
    with the one error "invalid token".  Every error of [ValidateToken] is
    either that one or "token is expired": neither the key nor the
    library's own error reaches the caller. *)
Theorem invalid_tokens_get_one_generic_error :
  forall (P : JWTPrimitives) (svc : services.AuthService) (now : time.Time),
    (forall tok,
        spec.malformed tok
        \/ spec.alg_not_HMAC tok
        \/ spec.bad_signature (services.jwtKey svc) tok ->
        services.ValidateToken svc now tok
        = Err (errorString "invalid token"))
    /\
    (forall tok e,
        services.ValidateToken svc now tok = Err e ->
        e = errorString "token is expired"
        \/ e = errorString "invalid token").
Proof.
  intros P svc now. split; [|intros tok e; apply ValidateToken_rejects].
  intros tok [Hm | [Ha | Hs]].
  - destruct Hm as [raw ->]. reflexivity.
  - destruct Ha as (sstr & alg & claims & sig & -> & Hno).
    unfold services.ValidateToken, jwt.ParseWithClaims, jwt.ParseUnverified.
    destruct alg as [a|]; [|reflexivity].
    destruct (jwt.GetSigningMethod a) as [m|] eqn:Hm; [|reflexivity].
    destruct m; try reflexivity.
    exfalso. exact (Hno a h eq_refl Hm).
  - destruct Hs as (sstr & a & h & claims & sig & -> & Hm & Hsig).
    unfold services.ValidateToken, jwt.ParseWithClaims, jwt.ParseUnverified.
    rewrite Hm.
    cbn [bind jwt.Method jwt.Signature jwt.TokenClaims jwt.Verify].
    apply String.eqb_neq in Hsig. rewrite Hsig. reflexivity.
Qed.

(** Garbage, an unsigned token, and a token with a forged signature. *)
Lemma invalid_tokens_get_one_generic_error_witness :
  services.ValidateToken (P := sample.primitives) sample.svc sample.t1
    (jwt.Undecodable "not.a.token")
  = Err (errorString "invalid token")
  /\
  services.ValidateToken (P := sample.primitives) sample.svc sample.t1
    (jwt.Compact "none.alice" (Some "none") sample.mallory_claims "")
  = Err (errorString "invalid token")
  /\
  services.ValidateToken (P := sample.primitives) sample.svc sample.t1
    (jwt.Compact "HS256.alice" (Some "HS256") sample.mallory_claims "forged")
  = Err (errorString "invalid token").
Proof.
  pose proof (proj1 (invalid_tokens_get_one_generic_error
                       sample.primitives sample.svc sample.t1)) as Hrej.
  split; [|split]; apply Hrej.
  - left. eexists. reflexivity.
  - right; left. do 4 eexists. split; [reflexivity|].
    intros a h [= <-]. discriminate.
  - right; right. do 5 eexists. split; [reflexivity|].
    split; [reflexivity | discriminate].
Defined.

(* ================================================================== *)
(** * Further properties of the patient search *)

Section SearchFacts.

Lemma supplied_not_given (f : option string) :
  database.given f = false -> spec.supplied f = None.
Proof.
  unfold database.given, spec.supplied. destruct f as [v|]; [|reflexivity].
  destruct (String.eqb v ""); [reflexivity | discriminate].
Qed.

Lemma exact_not_given (f : option string) (x : string) :
  database.given f = false -> spec.exact f x = true.
Proof.
  intros Hg. unfold spec.exact. now rewrite (supplied_not_given f Hg).
Qed.

Lemma like_underscore (p : string) (x : ascii) (t : string) :
  sql.like (String "_" p) (String x t)
  = sql.like p (sql.skip_continuation t).
Proof. reflexivity. Qed.

Lemma skip_continuation_boundary (s : string) :
  sql.boundary s = true -> sql.skip_continuation s = s.
Proof.
  destruct s as [|c s]; [reflexivity|]. cbn [sql.boundary sql.skip_continuation].
  now destruct (sql.continuation c).
Qed.

(** A value without backslash whose wildcards are well placed matches
    itself followed by anything. *)
Lemma like_self_prefix (v rest : string) :
  more.no_backslash v = true ->
  more.after_wildcards v = true ->
  sql.like (v ++ "%") (v ++ rest) = true.
Proof.
  induction v as [|c v IH]; intros Hnb Haw.
  - cbn [append]. apply like_percent_alone.
  - cbn [more.no_backslash] in Hnb.
    apply andb_true_iff in Hnb as [Hc Hv]. apply negb_true_iff in Hc.
    cbn [more.after_wildcards] in Haw.
    apply andb_true_iff in Haw as [Hnext Haw].
    specialize (IH Hv Haw). cbn [append].
    destruct (Ascii.eqb c "%") eqn:Hpc.
    + apply Ascii.eqb_eq in Hpc. subst c. cbn [orb] in Hnext.
      rewrite like_percent. apply orb_true_iff.
      destruct v as [|d v].
      * left. apply like_percent_alone.
      * right. rewrite later_cons.
        change (sql.boundary (String d v ++ rest))
          with (sql.boundary (String d v)).
        now rewrite Hnext, IH.
    + destruct (Ascii.eqb c "_") eqn:Hus.
      * apply Ascii.eqb_eq in Hus. subst c. cbn [orb] in Hnext.
        rewrite like_underscore.
        destruct v as [|d v]; [apply like_percent_alone|].
        rewrite skip_continuation_boundary; [exact IH|exact Hnext].
      * rewrite like_literal.
        -- now rewrite Ascii.eqb_refl, IH.
        -- unfold spec.wildcard. now rewrite Hpc, Hus, Hc.
Qed.

Lemma like_anywhere_split (v a b : string) :
  more.no_backslash v = true ->
  more.well_placed v = true ->
  spec.like_anywhere v (a ++ v ++ b) = true.
Proof.
  intros Hnb Hwp. unfold more.well_placed in Hwp.
  apply andb_true_iff in Hwp as [Hb Haw].
  unfold spec.like_anywhere. cbn [append]. rewrite like_percent.
  apply orb_true_iff.
  destruct v as [|c v]; [left; apply like_percent_alone|].
  destruct a as [|x a].
  - left. change ("" ++ String c v ++ b) with (String c v ++ b).
    now apply like_self_prefix.
  - right. change (String x a ++ String c v ++ b)
      with (String x (a ++ (String c v ++ b))).
    apply later_reach.
    + exact Hb.
    + now apply like_self_prefix.
Qed.

End SearchFacts.

(** X1.  A query in which no field is given (each is absent or empty)
    selects, on a reachable store, all the rows of the caller's hospital and
    nothing else, in the order of the table. *)
Theorem search_without_criteria_returns_the_tenant :
  forall (db : DB) (query : PatientSearchQuery.t) (T : N),
    read_fault db = None ->
    (forall f, database.given (more.get f query) = false) ->
    database.SearchPatients db query T
    = Ok (filter (fun p => N.eqb (Patient.HospitalID p) T)
                 (patient_rows db)).
Proof.
  intros db query T Hf Hnone.
  rewrite (SearchPatients_filter db query T Hf). f_equal.
  apply filter_ext. intros p.
  assert (Hm : spec.matches spec.like_anywhere query p = true).
  { unfold spec.matches, spec.name_pair, spec.born_on.
    pose proof (Hnone spec.NationalID) as H1.
    pose proof (Hnone spec.PassportID) as H2.
    pose proof (Hnone spec.FirstNameTH) as H3.
    pose proof (Hnone spec.FirstNameEN) as H4.
    pose proof (Hnone spec.MiddleNameTH) as H5.
    pose proof (Hnone spec.MiddleNameEN) as H6.
    pose proof (Hnone spec.LastNameTH) as H7.
    pose proof (Hnone spec.LastNameEN) as H8.
    pose proof (Hnone spec.DateOfBirth) as H9.
    pose proof (Hnone spec.PhoneNumber) as H10.
    pose proof (Hnone spec.Email) as H11.
    cbn [more.get] in *.
    rewrite !exact_not_given by assumption.
    rewrite (supplied_not_given _ H3), (supplied_not_given _ H4),
      (supplied_not_given _ H5), (supplied_not_given _ H6),
      (supplied_not_given _ H7), (supplied_not_given _ H8),
      (supplied_not_given _ H9).
    reflexivity. }
  rewrite Hm. apply andb_true_r.
Qed.

(** The empty query on the sample store, for hospital 1. *)
Lemma search_without_criteria_returns_the_tenant_witness :
  database.SearchPatients sample.db sample.no_criteria 1
  = Ok [sample.patientA].
Proof.
  rewrite (search_without_criteria_returns_the_tenant
             sample.db sample.no_criteria 1%N eq_refl).
  - reflexivity.
  - intros f. destruct f; reflexivity.
Defined.

(** X2.  An exact-match criterion (national ID, passport ID, phone, email)
    or a date of birth can only narrow the result: whatever the other
    criteria, every row returned with the criterion is also returned
    without it. *)
Theorem exact_criteria_only_narrow :
  forall (db : DB) (query : PatientSearchQuery.t) (T : N)
         (f : spec.Field) (v : string) (ps ps' : list Patient.t),
    more.plain_criterion f = true ->
    database.SearchPatients db (spec.set f (Some v) query) T = Ok ps ->
    database.SearchPatients db (spec.set f None query) T = Ok ps' ->
    incl ps ps'.
Proof.
  intros db query T f v ps ps' Hf Hs Hs'.
  unfold database.SearchPatients in Hs, Hs'.
  destruct (read_fault db); [discriminate|].
  injection Hs as <-. injection Hs' as <-.
  unfold sql.select. intros p Hin.
  apply filter_In in Hin as [Hrow Hq]. apply filter_In. split; [exact Hrow|].
  rewrite SearchPatients_query_holds in Hq |- *.
  apply andb_true_iff in Hq as [Hh Hm]. rewrite Hh. cbn [andb].
  destruct f; try discriminate Hf;
    unfold spec.matches in Hm |- *; cbn in Hm |- *;
    repeat (apply andb_true_iff in Hm as [Hm ?]);
    repeat (apply andb_true_iff; split); assumption || reflexivity.
Qed.

(** Adding a national ID to the empty query on the sample store. *)
Lemma exact_criteria_only_narrow_witness :
  incl [sample.patientA] [sample.patientA].
Proof.
  apply (exact_criteria_only_narrow
           sample.db sample.no_criteria 1%N spec.NationalID "N1");
    reflexivity.
Defined.

(** X3.  A name criterion is different: when the other variant of the same
    name component is already supplied, supplying this one as well can only
    widen the result (the pair becomes an OR): every row returned without
    it is still returned with it. *)
Theorem second_name_variant_only_widens :
  forall (db : DB) (query : PatientSearchQuery.t) (T : N)
         (f g : spec.Field) (v w : string) (ps ps' : list Patient.t),
    more.partner f = Some g ->
    more.get g query = Some w ->
    w <> "" ->
    database.SearchPatients db (spec.set f None query) T = Ok ps ->
    database.SearchPatients db (spec.set f (Some v) query) T = Ok ps' ->
    incl ps ps'.
Proof.
  intros db query T f g v w ps ps' Hp Hg Hw Hs Hs'.
  unfold database.SearchPatients in Hs, Hs'.
  destruct (read_fault db); [discriminate|].
  injection Hs as <-. injection Hs' as <-.
  unfold sql.select. intros p Hin.
  apply filter_In in Hin as [Hrow Hq]. apply filter_In. split; [exact Hrow|].
  rewrite SearchPatients_query_holds in Hq |- *.
  apply andb_true_iff in Hq as [Hh Hm]. rewrite Hh. cbn [andb].
  apply String.eqb_neq in Hw.
  destruct f; try discriminate Hp; injection Hp as <-;
    cbn [more.get] in Hg;
    unfold spec.matches, spec.name_pair, spec.supplied in Hm |- *;
    cbn in Hm |- *; rewrite Hg, Hw in Hm |- *;
    repeat (apply andb_true_iff in Hm as [Hm ?]);
    repeat (apply andb_true_iff; split); try assumption;
    destruct (String.eqb v ""); try assumption;
    apply orb_true_iff; auto.
Qed.

(** Alice's store: an English first name alone against both variants. *)
Lemma second_name_variant_only_widens_witness :
  incl [] [sample.patientA].
Proof.
  apply (second_name_variant_only_widens
           sample.db
           (spec.set spec.FirstNameEN (Some "zzz") sample.no_criteria) 1%N
           spec.FirstNameTH spec.FirstNameEN "th-a" "zzz");
    try reflexivity.
  discriminate.
Defined.

(** X4.  The wildcards of LIKE only add matches: a name value without
    backslash that is text (it starts at a character, and so does what
    follows each of its wildcards) selects every field that contains the
    value literally. *)
Theorem literal_occurrence_always_matches :
  forall (v field : string),
    more.no_backslash v = true ->
    more.well_placed v = true ->
    spec.contains v field = true ->
    spec.like_anywhere v field = true.
Proof.
  intros v field Hnb Hwp Hc.
  apply contains_split in Hc as (a & b & ->).
  now apply like_anywhere_split.
Qed.

(** A Thai value with both wildcards, found literally. *)
Lemma literal_occurrence_always_matches_witness :
  spec.like_anywhere "ส%ม_ย" "คุณ ส%ม_ย ค่ะ" = true.
Proof.
  apply literal_occurrence_always_matches; reflexivity.
Defined.

(** The condition on the value is needed: an underscore takes the stray
    continuation byte after it as part of its character. *)
Remark stray_bytes_are_not_matched :
  more.no_backslash more.stray_value = true
  /\ spec.contains more.stray_value more.stray_value = true
  /\ spec.like_anywhere more.stray_value more.stray_value = false.
Proof. repeat split. Qed.

(* ================================================================== *)
(** * Dates *)

Section DateFacts.

Local Open Scope Z_scope.

Lemma digit_range (c : ascii) :
  time.isDigit c = true -> 0 <= time.digit c <= 9.
Proof.
  unfold time.isDigit, time.digit. intros Hd.
  apply andb_true_iff in Hd as [Hlo Hhi].
  apply Nat.leb_le in Hlo, Hhi. lia.
Qed.

Lemma digit_inj (a b : ascii) :
  time.digit a = time.digit b -> a = b.
Proof.
  unfold time.digit. intros Hd.
  assert (Hn : nat_of_ascii a = nat_of_ascii b) by lia.
  rewrite <- (ascii_nat_embedding a), <- (ascii_nat_embedding b).
  now rewrite Hn.
Qed.

(** The shape of an accepted date: ten bytes, digits around two dashes,
    with a month and a day that exist. *)
Lemma Parse_shape (v : string) (t : time.Time) :
  time.Parse_2006_01_02 v = Ok t ->
  exists y1 y2 y3 y4 m1 m2 d1 d2 : ascii,
    v = String y1 (String y2 (String y3 (String y4 (String "-"
          (String m1 (String m2 (String "-"
             (String d1 (String d2 EmptyString)))))))))
    /\ Forall (fun c => time.isDigit c = true)
              [y1; y2; y3; y4; m1; m2; d1; d2]
    /\ let year := time.digit y1 * 1000 + time.digit y2 * 100
                   + time.digit y3 * 10 + time.digit y4 in
       let month := time.digit m1 * 10 + time.digit m2 in
       let day := time.digit d1 * 10 + time.digit d2 in
       1 <= month <= 12
       /\ 1 <= day <= time.daysIn month year
       /\ t = time.Date year month day.
Proof.
  unfold time.Parse_2006_01_02, time.getyear, time.getnum2, time.skipDash.
  destruct v as [|y1 [|y2 [|y3 [|y4 v]]]]; try discriminate.
  destruct (time.isDigit y1) eqn:Hy1; [|discriminate].
  destruct (time.isDigit y2) eqn:Hy2; [|discriminate].
  destruct (time.isDigit y3) eqn:Hy3; [|discriminate].
  destruct (time.isDigit y4) eqn:Hy4; [|discriminate].
  cbn [andb].
  destruct v as [|dash1 v]; [discriminate|].
  destruct (Ascii.eqb_spec dash1 "-") as [->|]; [|discriminate].
  destruct v as [|m1 [|m2 v]]; try discriminate.
  destruct (time.isDigit m1) eqn:Hm1; [|discriminate].
  destruct (time.isDigit m2) eqn:Hm2; [|discriminate].
  cbn [andb].
  destruct ((_ <=? 0) || (12 <? _)) eqn:Hm; [discriminate|].
  destruct v as [|dash2 v]; [discriminate|].
  destruct (Ascii.eqb_spec dash2 "-") as [->|]; [|discriminate].
  destruct v as [|d1 [|d2 v]]; try discriminate.
  destruct (time.isDigit d1) eqn:Hd1; [|discriminate].
  destruct (time.isDigit d2) eqn:Hd2; [|discriminate].
  cbn [andb].
  destruct v; [|discriminate].
  destruct ((_ <? 1) || (_ <? _)) eqn:Hd; [discriminate|].
  intros [= <-].
  exists y1, y2, y3, y4, m1, m2, d1, d2.
  split; [reflexivity|]. split; [repeat constructor; assumption|].
  cbv zeta.
  apply orb_false_iff in Hm as [Hm1' Hm2'].
  apply orb_false_iff in Hd as [Hd1' Hd2'].
  apply Z.leb_gt in Hm1'. apply Z.ltb_ge in Hm2', Hd1', Hd2'.
  repeat split; lia.
Qed.

Lemma leapsThrough_step (y : Z) :
  time.leapsThrough y - time.leapsThrough (y - 1)
  = if time.isLeap y then 1 else 0.
Proof.
  unfold time.leapsThrough, time.isLeap.
  destruct (y mod 4 =? 0) eqn:H4;
    destruct (y mod 100 =? 0) eqn:H100;
    destruct (y mod 400 =? 0) eqn:H400;
    cbn [andb orb negb];
    rewrite ?Z.eqb_eq, ?Z.eqb_neq in *;
    Z.div_mod_to_equations; lia.
Qed.

Lemma yearStart_step (y : Z) :
  more.yearStart (y + 1) = more.yearStart y + 365 + (if time.isLeap y then 1 else 0).
Proof.
  unfold more.yearStart, time.daysSinceEpoch. cbn [time.daysBefore Z.leb andb].
  pose proof (leapsThrough_step y) as Hs.
  replace (y + 1 - 1) with y by lia.
  change (3 <=? 1) with false. cbn [andb]. lia.
Qed.

Lemma yearStart_mono (y y' : Z) :
  y < y' ->
  more.yearStart y + 365 + (if time.isLeap y then 1 else 0) <= more.yearStart y'.
Proof.
  intros Hlt. rewrite <- yearStart_step.
  assert (Hgen : forall n, 0 <= n ->
            more.yearStart (y + 1) <= more.yearStart (y + 1 + n)).
  { intros n Hn. pattern n. apply natlike_ind; [| |exact Hn].
    - rewrite Z.add_0_r. lia.
    - intros k Hk IH.
      replace (y + 1 + Z.succ k) with (y + 1 + k + 1) by lia.
      rewrite (yearStart_step (y + 1 + k)).
      destruct (time.isLeap (y + 1 + k)); lia. }
  specialize (Hgen (y' - (y + 1)) ltac:(lia)).
  now replace (y + 1 + (y' - (y + 1))) with y' in Hgen by lia.
Qed.

(** Within a year the day number is the year's start plus a day of the
    year, which stays below the length of the year. *)
Lemma daysSinceEpoch_in_year (y m d : Z) :
  1 <= m <= 12 -> 1 <= d <= time.daysIn m y ->
  more.yearStart y <= time.daysSinceEpoch y m d
  < more.yearStart y + 365 + (if time.isLeap y then 1 else 0).
Proof.
  intros Hm Hd. unfold more.yearStart, time.daysSinceEpoch.
  unfold time.daysIn in Hd.
  assert (Hcases : m = 1 \/ m = 2 \/ m = 3 \/ m = 4 \/ m = 5 \/ m = 6
                   \/ m = 7 \/ m = 8 \/ m = 9 \/ m = 10 \/ m = 11 \/ m = 12)
    by lia.
  destruct (time.isLeap y);
    repeat (destruct Hcases as [-> | Hcases]); try subst m;
    cbn in Hd |- *; lia.
Qed.

Lemma daysSinceEpoch_same_year_inj (y m d m' d' : Z) :
  1 <= m <= 12 -> 1 <= d <= time.daysIn m y ->
  1 <= m' <= 12 -> 1 <= d' <= time.daysIn m' y ->
  time.daysSinceEpoch y m d = time.daysSinceEpoch y m' d' ->
  m = m' /\ d = d'.
Proof.
  intros Hm Hd Hm' Hd'. unfold time.daysSinceEpoch, time.daysIn in *.
  assert (Hc : m = 1 \/ m = 2 \/ m = 3 \/ m = 4 \/ m = 5 \/ m = 6
               \/ m = 7 \/ m = 8 \/ m = 9 \/ m = 10 \/ m = 11 \/ m = 12)
    by lia.
  assert (Hc' : m' = 1 \/ m' = 2 \/ m' = 3 \/ m' = 4 \/ m' = 5 \/ m' = 6
                \/ m' = 7 \/ m' = 8 \/ m' = 9 \/ m' = 10 \/ m' = 11
                \/ m' = 12) by lia.
  destruct (time.isLeap y);
    repeat (destruct Hc as [-> | Hc]); try subst m;
    repeat (destruct Hc' as [-> | Hc']); try subst m';
    cbn in Hd, Hd' |- *; lia.
Qed.

(** Different calendar dates are different times. *)
Lemma Date_inj (y m d y' m' d' : Z) :
  1 <= m <= 12 -> 1 <= d <= time.daysIn m y ->
  1 <= m' <= 12 -> 1 <= d' <= time.daysIn m' y' ->
  time.Date y m d = time.Date y' m' d' ->
  y = y' /\ m = m' /\ d = d'.
Proof.
  intros Hm Hd Hm' Hd' Heq. unfold time.Date, time.Second in Heq.
  assert (Hdays : time.daysSinceEpoch y m d = time.daysSinceEpoch y' m' d')
    by lia.
  pose proof (daysSinceEpoch_in_year y m d Hm Hd) as Hr.
  pose proof (daysSinceEpoch_in_year y' m' d' Hm' Hd') as Hr'.
  assert (Hy : y = y').
  { destruct (Z.lt_trichotomy y y') as [Hlt | [Heq' | Hgt]]; [|exact Heq'|].
    - pose proof (yearStart_mono y y' Hlt). lia.
    - pose proof (yearStart_mono y' y Hgt). lia. }
  subst y'. split; [reflexivity|].
  now apply (daysSinceEpoch_same_year_inj y).
Qed.

End DateFacts.

Lemma Parse_faithful :
  forall (v v' : string) (t : time.Time),
    time.Parse_2006_01_02 v = Ok t ->
    String.length v = 10%nat
    /\ (t mod (86400 * time.Second) = 0)%Z
    /\ (time.Parse_2006_01_02 v' = Ok t -> v = v').
Proof.
  intros v v' t Hv.
  destruct (Parse_shape v t Hv)
    as (y1 & y2 & y3 & y4 & m1 & m2 & d1 & d2 & -> & Hdig & Hm & Hd & Ht).
  split; [reflexivity|]. split.
  - rewrite Ht. unfold time.Date.
    rewrite <- Z.mul_assoc. apply Z.mod_mul. discriminate.
  - intros Hv'.
    destruct (Parse_shape v' t Hv')
      as (z1 & z2 & z3 & z4 & n1 & n2 & e1 & e2 & -> & Hdig' & Hm' & Hd'
          & Ht').
    rewrite Ht in Ht'.
    apply Date_inj in Ht' as (Hy & Hmm & Hdd); try assumption.
    repeat match goal with
           | H : Forall _ (_ :: _) |- _ => inversion H; subst; clear H
           | H : Forall _ [] |- _ => clear H
           end.
    repeat match goal with
           | H : time.isDigit ?c = true |- _ =>
               apply digit_range in H
           end.
    assert (time.digit y1 = time.digit z1) by lia.
    assert (time.digit y2 = time.digit z2) by lia.
    assert (time.digit y3 = time.digit z3) by lia.
    assert (time.digit y4 = time.digit z4) by lia.
    assert (time.digit m1 = time.digit n1) by lia.
    assert (time.digit m2 = time.digit n2) by lia.
    assert (time.digit d1 = time.digit e1) by lia.
    assert (time.digit d2 = time.digit e2) by lia.
    repeat match goal with
           | H : time.digit ?a = time.digit ?b |- _ =>
               apply digit_inj in H; subst a
           end.
    reflexivity.
Qed.

(** X5.  [time.Parse] with the layout of the search accepts only ten-byte
    strings, the time it returns is a midnight (a whole number of days from
    the epoch), and two accepted strings that give the same time are the
    same string. *)
Theorem parsed_dates_are_faithful :
  forall (v v' : string) (t : time.Time),
    time.Parse_2006_01_02 v = Ok t ->
    String.length v = 10%nat
    /\ (t mod (86400 * time.Second) = 0)%Z
    /\ (time.Parse_2006_01_02 v' = Ok t -> v = v').
Proof. exact Parse_faithful. Qed.

(** The fifteenth of May 1990. *)
Lemma parsed_dates_are_faithful_witness :
  String.length "1990-05-15" = 10%nat
  /\ (time.Date 1990 5 15 mod (86400 * time.Second) = 0)%Z
  /\ (time.Parse_2006_01_02 "1990-05-15" = Ok (time.Date 1990 5 15) ->
      "1990-05-15" = "1990-05-15").
Proof.
  apply (parsed_dates_are_faithful "1990-05-15" "1990-05-15"). reflexivity.
Defined.

(** X6.  Searching by date of birth separates dates: for two different
    well-formed dates and otherwise equal criteria, no row is returned by
    both searches. *)
Theorem different_dates_select_different_rows :
  forall (db : DB) (query : PatientSearchQuery.t) (T : N)
         (v v' : string) (d d' : time.Time) (ps ps' : list Patient.t),
    time.Parse_2006_01_02 v = Ok d ->
    time.Parse_2006_01_02 v' = Ok d' ->
    v <> v' ->
    database.SearchPatients db (spec.set spec.DateOfBirth (Some v) query) T
    = Ok ps ->
    database.SearchPatients db (spec.set spec.DateOfBirth (Some v') query) T
    = Ok ps' ->
    forall p, In p ps -> ~ In p ps'.
Proof.
  intros db query T v v' d d' ps ps' Hv Hv' Hne Hs Hs' p Hin Hin'.
  assert (Hborn : forall w dw rows,
    time.Parse_2006_01_02 w = Ok dw ->
    database.SearchPatients db (spec.set spec.DateOfBirth (Some w) query) T
    = Ok rows ->
    In p rows -> Patient.DateOfBirth p = Some dw).
  { intros w dw rows Hw Hrows Hp.
    unfold database.SearchPatients in Hrows.
    destruct (read_fault db); [discriminate|]. injection Hrows as <-.
    unfold sql.select in Hp. apply filter_In in Hp as [_ Hq].
    rewrite SearchPatients_query_holds in Hq.
    apply andb_true_iff in Hq as [_ Hm].
    rewrite matches_without_dob in Hm.
    apply andb_true_iff in Hm as [_ Hb].
    assert (Hwne : String.eqb w "" = false)
      by (destruct w; [discriminate Hw | reflexivity]).
    destruct query; cbn in Hb.
    unfold spec.born_on, spec.supplied in Hb. rewrite Hwne, Hw in Hb.
    destruct (Patient.DateOfBirth p) as [x|]; [|discriminate].
    apply Z.eqb_eq in Hb. now subst. }
  pose proof (Hborn v d ps Hv Hs Hin) as H1.
  pose proof (Hborn v' d' ps' Hv' Hs' Hin') as H2.
  rewrite H1 in H2. injection H2 as <-.
  apply Hne.
  exact (proj2 (proj2 (Parse_faithful v v' d Hv)) Hv').
Qed.

(** The sample patient, born on the fifteenth, is not found on the
    sixteenth. *)
Lemma different_dates_select_different_rows_witness :
  ~ In sample.patientA [].
Proof.
  apply (different_dates_select_different_rows
           sample.db sample.no_criteria 1%N "1990-05-15" "1990-05-16"
           (time.Date 1990 5 15) (time.Date 1990 5 16)
           [sample.patientA] []);
    try reflexivity.
  - discriminate.
  - left. reflexivity.
Defined.

(* ================================================================== *)
(** * The staff table *)

Section StaffFacts.

Lemma least_ID_spec (best : Staff.t) (rows : list Staff.t) :
  In (database.least_ID best rows) (best :: rows)
  /\ forall s, In s (best :: rows) ->
               (Staff.ID (database.least_ID best rows) <= Staff.ID s)%N.
Proof.
  revert best. induction rows as [|r rows IH]; intros best; cbn [database.least_ID].
  - split; [now left|]. intros s [<- | []]. reflexivity.
  - destruct (N.ltb_spec (Staff.ID r) (Staff.ID best)) as [Hlt|Hge].
    + destruct (IH r) as [Hin Hmin]. split.
      * destruct Hin as [<- | Hin]; [right; now left | right; now right].
      * intros s [<- | [<- | Hs]].
        -- specialize (Hmin r (or_introl eq_refl)). lia.
        -- apply Hmin. now left.
        -- apply Hmin. now right.
    + destruct (IH best) as [Hin Hmin]. split.
      * destruct Hin as [<- | Hin]; [now left | right; now right].
      * intros s [<- | [<- | Hs]].
        -- apply Hmin. now left.
        -- specialize (Hmin best (or_introl eq_refl)). lia.
        -- apply Hmin. now right.
Qed.

Lemma filter_snoc {A : Type} (f : A -> bool) (l : list A) (x : A) :
  filter f (l ++ [x]) = (filter f l ++ if f x then [x] else [])%list.
Proof.
  induction l as [|y l IH]; cbn [app filter].
  - destruct (f x); reflexivity.
  - rewrite IH. destruct (f y); reflexivity.
Qed.

Lemma NoDup_map_snoc {A B : Type} (f : A -> B) (l : list A) (x : A) :
  NoDup (map f l) ->
  (forall y, In y l -> f y <> f x) ->
  NoDup (map f (l ++ [x])).
Proof.
  intros Hnd Hfresh. rewrite map_app. cbn [map].
  induction l as [|y l IH]; cbn [map app].
  - constructor; [intros []|constructor].
  - inversion Hnd as [|? ? Hnotin Hnd']; subst. constructor.
    + rewrite in_app_iff. intros [Hin | [Heq | []]].
      * exact (Hnotin Hin).
      * exact (Hfresh y (or_introl eq_refl) (eq_sym Heq)).
    + apply IH; [exact Hnd'|]. intros z Hz. apply Hfresh. now right.
Qed.

(** What a successful insert did, and what a refused one left alone. *)
Lemma CreateStaff_effect (db db' : DB) (now : time.Time)
      (staff : Staff.t) (r : Result Staff.t) :
  database.CreateStaff db now staff = (r, db') ->
  patient_rows db' = patient_rows db
  /\ read_fault db' = read_fault db
  /\ write_fault db' = write_fault db
  /\ match r with
     | Err _ => staff_rows db' = staff_rows db
     | Ok row =>
         staff_rows db' = (staff_rows db ++ [row])%list
         /\ Staff.Username row = Staff.Username staff
         /\ Staff.PasswordHash row = Staff.PasswordHash staff
         /\ Staff.HospitalID row = Staff.HospitalID staff
         /\ Staff.HospitalName row = Staff.HospitalName staff
         /\ (forall s, In s (staff_rows db) ->
                       Staff.ID s <> Staff.ID row
                       /\ Staff.Username s <> Staff.Username row)
     end.
Proof.
  unfold database.CreateStaff. intros Hc.
  destruct (write_fault db) eqn:Hw.
  { injection Hc as <- <-. repeat split; congruence. }
  destruct (existsb _ (staff_rows db)) eqn:Hex.
  { injection Hc as <- <-. cbn. repeat split; congruence. }
  injection Hc as <- <-.
  cbn [patient_rows read_fault write_fault staff_rows Staff.Username
       Staff.PasswordHash Staff.HospitalID Staff.HospitalName Staff.ID].
  split; [reflexivity|]. split; [reflexivity|]. split; [congruence|].
  repeat (split; [reflexivity|]).
  intros s Hs.
  assert (Hs' := proj2 (Bool.not_true_iff_false _) Hex).
  assert (Hf : N.eqb (Staff.ID s)
                 (if N.eqb (Staff.ID staff) 0
                  then N.succ (staff_seq db) else Staff.ID staff)
               || String.eqb (Staff.Username s) (Staff.Username staff)
               = false).
  { destruct (_ || _) eqn:Hor; [|reflexivity].
    exfalso. apply Hs'. apply existsb_exists. exists s. now split. }
  apply orb_false_iff in Hf as [Hid Hname].
  split; [now apply N.eqb_neq | now apply String.eqb_neq].
Qed.

Lemma FindStaffByUsername_present (db : DB) (row : Staff.t) :
  read_fault db = None ->
  In row (staff_rows db) ->
  exists s, database.FindStaffByUsername db (Staff.Username row) = Ok s.
Proof.
  intros Hf Hin. unfold database.FindStaffByUsername. rewrite Hf.
  destruct (filter _ (staff_rows db)) as [|r rs] eqn:Hfl.
  - exfalso.
    assert (Hin' : In row (filter
              (fun s => String.eqb (Staff.Username s) (Staff.Username row))
              (staff_rows db))).
    { apply filter_In. split; [exact Hin | apply String.eqb_refl]. }
    rewrite Hfl in Hin'. exact Hin'.
  - eexists. reflexivity.
Qed.

(** After an insert, the new row is the one its user name finds. *)
Lemma FindStaffByUsername_new_row (db : DB) (row : Staff.t) :
  read_fault db = None ->
  (forall s, In s (staff_rows db) ->
             Staff.Username s <> Staff.Username row) ->
  forall db',
    staff_rows db' = (staff_rows db ++ [row])%list ->
    read_fault db' = None ->
    database.FindStaffByUsername db' (Staff.Username row) = Ok row.
Proof.
  intros Hf Hfresh db' Hrows Hf'.
  unfold database.FindStaffByUsername. rewrite Hf', Hrows, filter_snoc.
  rewrite filter_none.
  - now rewrite String.eqb_refl.
  - intros s Hs. apply String.eqb_neq. now apply Hfresh.
Qed.

End StaffFacts.

(** X7.  [FindStaffByUsername] answers from the table: a row it returns is
    a row of the table with the user name asked for, and of all such rows
    the one with the least primary key; on a reachable store it reports
    "record not found" exactly when no row carries the name. *)
Theorem find_staff_answers_from_the_table :
  forall (db : DB) (username : string),
    (forall s, database.FindStaffByUsername db username = Ok s ->
       In s (staff_rows db)
       /\ Staff.Username s = username
       /\ forall s', In s' (staff_rows db) ->
                     Staff.Username s' = username ->
                     (Staff.ID s <= Staff.ID s')%N)
    /\ (read_fault db = None ->
        (database.FindStaffByUsername db username
         = Err (sentinel gorm_ErrRecordNotFound)
         <-> forall s, In s (staff_rows db) ->
                       Staff.Username s <> username)).
Proof.
  intros db username. split.
  - intros s Hfind. unfold database.FindStaffByUsername in Hfind.
    destruct (read_fault db); [discriminate|].
    destruct (filter _ (staff_rows db)) as [|r rs] eqn:Hfl; [discriminate|].
    injection Hfind as <-.
    destruct (least_ID_spec r rs) as [Hin Hmin].
    rewrite <- Hfl in Hin. apply filter_In in Hin as [Hrow Hname].
    apply String.eqb_eq in Hname.
    split; [exact Hrow|]. split; [exact Hname|].
    intros s' Hs' Hn'. apply Hmin. rewrite <- Hfl. apply filter_In.
    split; [exact Hs' | now apply String.eqb_eq].
  - intros Hf. split.
    + intros Hnone s Hs Hname. subst username.
      destruct (FindStaffByUsername_present db s Hf Hs) as [s' Hs'].
      rewrite Hs' in Hnone. discriminate.
    + apply FindStaffByUsername_absent. exact Hf.
Qed.

(** Alice is found under her name, nobody under Bob's. *)
Lemma find_staff_answers_from_the_table_witness :
  In sample.alice (staff_rows sample.db)
  /\ (forall s, In s (staff_rows sample.db) -> Staff.Username s <> "bob").
Proof.
  split.
  - apply (proj1 (find_staff_answers_from_the_table sample.db "alice")
                 sample.alice eq_refl).
  - apply (proj2 (find_staff_answers_from_the_table sample.db "bob")
                 eq_refl).
    reflexivity.
Defined.

(** X8.  [CreateStaff] keeps the staff table well formed: if user names and
    primary keys were unique before, they are unique after, whatever row is
    offered and whether or not the insert succeeds; the table grows by the
    stored row on success and is unchanged on failure. *)
Theorem create_staff_keeps_keys_unique :
  forall (db db' : DB) (now : time.Time) (staff : Staff.t)
         (r : Result Staff.t),
    more.staff_unique db ->
    database.CreateStaff db now staff = (r, db') ->
    more.staff_unique db'
    /\ match r with
       | Ok row => staff_rows db' = (staff_rows db ++ [row])%list
       | Err _ => staff_rows db' = staff_rows db
       end.
Proof.
  intros db db' now staff r [Hnames Hids] Hc.
  destruct (CreateStaff_effect db db' now staff r Hc)
    as (_ & _ & _ & Hr).
  destruct r as [row|e].
  - destruct Hr as (Hrows & _ & _ & _ & _ & Hfresh).
    split; [|exact Hrows]. unfold more.staff_unique. rewrite Hrows. split.
    + apply NoDup_map_snoc; [exact Hnames|].
      intros y Hy. now apply Hfresh.
    + apply NoDup_map_snoc; [exact Hids|].
      intros y Hy. now apply Hfresh.
  - split; [|exact Hr]. unfold more.staff_unique. rewrite Hr. now split.
Qed.

(** A second Alice is refused and the table stays as it was. *)
Lemma create_staff_keeps_keys_unique_witness :
  more.staff_unique sample.db
  /\ staff_rows (snd (database.CreateStaff sample.db sample.t1 sample.alice))
     = staff_rows sample.db.
Proof.
  assert (Hu : more.staff_unique sample.db).
  { split; (constructor; [intros []|constructor]). }
  split; [exact Hu|].
  exact (proj2 (create_staff_keeps_keys_unique
                  sample.db _ sample.t1 sample.alice _ Hu eq_refl)).
Defined.

(* ================================================================== *)
(** * Registration *)

Section RegistrationFacts.
Context {H : PasswordHasher}.

(** The one way to a 201 response. *)
Lemma CreateStaffHandler_created (db db' : DB) (now : time.Time)
      (bound : Result StaffCreateRequest.t) (resp : handlers.Response) :
  handlers.CreateStaffHandler db now bound = (resp, db') ->
  handlers.status resp = handlers.StatusCreated ->
  exists req hashed hospitalID row,
    bound = Ok req
    /\ HashPassword (StaffCreateRequest.Password req) = Ok hashed
    /\ database.GetHospitalIDByName (StaffCreateRequest.Hospital req)
       = Ok hospitalID
    /\ database.CreateStaff
         db now
         (Staff.mk 0 (StaffCreateRequest.Username req) hashed hospitalID
                   (StaffCreateRequest.Hospital req) time.zero time.zero)
       = (Ok row, db')
    /\ handlers.body resp
       = handlers.StaffBody (Staff.set_PasswordHash row "").
Proof.
  unfold handlers.CreateStaffHandler. intros Hr Hst.
  destruct bound as [req|e];
    [|injection Hr as <- <-; discriminate Hst].
  destruct (database.FindStaffByUsername _ _) as [s|e];
    [injection Hr as <- <-; discriminate Hst|].
  destruct (negb (errors.Is e _));
    [injection Hr as <- <-; discriminate Hst|].
  destruct (HashPassword _) as [hashed|e'] eqn:Hh;
    [|injection Hr as <- <-; discriminate Hst].
  destruct (database.GetHospitalIDByName _) as [id|e'] eqn:Hid;
    [|injection Hr as <- <-; discriminate Hst].
  destruct (database.CreateStaff _ _ _) as [[row|e'] d] eqn:Hc;
    [|injection Hr as <- <-; discriminate Hst].
  injection Hr as <- <-.
  exists req, hashed, id, row. repeat split; assumption || reflexivity.
Qed.

(** Every other response leaves the staff table as it was. *)
Lemma CreateStaffHandler_refused (db db' : DB) (now : time.Time)
      (bound : Result StaffCreateRequest.t) (resp : handlers.Response) :
  handlers.CreateStaffHandler db now bound = (resp, db') ->
  handlers.status resp <> handlers.StatusCreated ->
  staff_rows db' = staff_rows db /\ patient_rows db' = patient_rows db.
Proof.
  unfold handlers.CreateStaffHandler. intros Hr Hst.
  destruct bound as [req|e]; [|injection Hr as <- <-; now split].
  destruct (database.FindStaffByUsername _ _) as [s|e];
    [injection Hr as <- <-; now split|].
  destruct (negb (errors.Is e _)); [injection Hr as <- <-; now split|].
  destruct (HashPassword _) as [hashed|e'];
    [|injection Hr as <- <-; now split].
  destruct (database.GetHospitalIDByName _) as [id|e'];
    [|injection Hr as <- <-; now split].
  destruct (database.CreateStaff _ _ _) as [[row|e'] d] eqn:Hc.
  - injection Hr as <- <-. exfalso. now apply Hst.
  - injection Hr as <- <-.
    destruct (CreateStaff_effect _ _ _ _ _ Hc) as (Hp & _ & _ & Hrows).
    now split.
Qed.

End RegistrationFacts.

(** X9.  [CreateStaffHandler] touches the store in one way only.  It never
    changes the patient table.  On every response other than 201 the staff
    table is unchanged.  On 201 exactly one row was appended: it carries the
    request's user name and hospital name, the hospital number that name
    resolves to, and the hasher's output for the request's password, while
    the body sent back is that row with the hash blanked. *)
Theorem registration_appends_one_hashed_row :
  forall (H : PasswordHasher) (db db' : DB) (now : time.Time)
         (bound : Result StaffCreateRequest.t) (resp : handlers.Response),
    handlers.CreateStaffHandler db now bound = (resp, db') ->
    patient_rows db' = patient_rows db
    /\ (handlers.status resp <> handlers.StatusCreated ->
        staff_rows db' = staff_rows db)
    /\ (handlers.status resp = handlers.StatusCreated ->
        exists req hashed row,
          bound = Ok req
          /\ HashPassword (StaffCreateRequest.Password req) = Ok hashed
          /\ staff_rows db' = (staff_rows db ++ [row])%list
          /\ Staff.Username row = StaffCreateRequest.Username req
          /\ Staff.HospitalName row = StaffCreateRequest.Hospital req
          /\ more.hospital_consistent row
          /\ Staff.PasswordHash row = hashed
          /\ handlers.body resp
             = handlers.StaffBody (Staff.set_PasswordHash row "")).
Proof.
  intros H db db' now bound resp Hr.
  assert (Hcreated :
    handlers.status resp = handlers.StatusCreated ->
    exists req hashed row,
      bound = Ok req
      /\ HashPassword (StaffCreateRequest.Password req) = Ok hashed
      /\ staff_rows db' = (staff_rows db ++ [row])%list
      /\ Staff.Username row = StaffCreateRequest.Username req
      /\ Staff.HospitalName row = StaffCreateRequest.Hospital req
      /\ more.hospital_consistent row
      /\ Staff.PasswordHash row = hashed
      /\ handlers.body resp
         = handlers.StaffBody (Staff.set_PasswordHash row "")
      /\ patient_rows db' = patient_rows db).
  { intros Hst.
    destruct (CreateStaffHandler_created db db' now bound resp Hr Hst)
      as (req & hashed & id & row & Hb & Hh & Hid & Hc & Hbody).
    destruct (CreateStaff_effect _ _ _ _ _ Hc)
      as (Hp & _ & _ & Hrows & Hn & Hph & Hhid & Hhn & _).
    cbn in Hn, Hph, Hhid, Hhn.
    exists req, hashed, row. repeat split; try assumption.
    unfold more.hospital_consistent. now rewrite Hhn, Hhid. }
  split; [|split].
  - destruct (N.eq_dec (handlers.status resp) handlers.StatusCreated)
      as [Hst|Hst].
    + destruct (Hcreated Hst) as (? & ? & ? & ? & ? & ? & ? & ? & ? & ? & ? & Hp).
      exact Hp.
    + exact (proj2 (CreateStaffHandler_refused db db' now bound resp Hr Hst)).
  - intros Hst.
    exact (proj1 (CreateStaffHandler_refused db db' now bound resp Hr Hst)).
  - intros Hst.
    destruct (Hcreated Hst)
      as (req & hashed & row & ? & ? & ? & ? & ? & ? & ? & ? & _).
    exists req, hashed, row. repeat split; assumption.
Qed.

(** Bob registers at Hospital B in the sample store. *)
Lemma registration_appends_one_hashed_row_witness :
  exists row,
    staff_rows
      (snd (handlers.CreateStaffHandler (H := sample.hasher)
              sample.db sample.t1
              (Ok (StaffCreateRequest.mk "bob" "pw456" "Hospital B"))))
    = [sample.alice; row]
    /\ Staff.PasswordHash row = "hashed:pw456"
    /\ Staff.HospitalID row = 2%N.
Proof.
  destruct (registration_appends_one_hashed_row
              sample.hasher sample.db _ sample.t1
              (Ok (StaffCreateRequest.mk "bob" "pw456" "Hospital B")) _
              eq_refl)
    as (_ & _ & Hcreated).
  destruct (Hcreated eq_refl)
    as (req & hashed & row & Hb & Hh & Hrows & _ & Hhn & Hcons & Hph & _).
  injection Hb as <-. cbn in Hh. injection Hh as <-.
  exists row. split; [exact Hrows|]. split; [exact Hph|].
  unfold more.hospital_consistent in Hcons. rewrite Hhn in Hcons.
  cbn in Hcons. now injection Hcons.
Defined.

(** X10.  Registration keeps the staff table well formed: if user names and
    primary keys are unique and every row's hospital number is the one its
    hospital name resolves to, the same holds after [CreateStaffHandler],
    whatever the request and the response. *)
Theorem registration_keeps_the_staff_table_well_formed :
  forall (H : PasswordHasher) (db db' : DB) (now : time.Time)
         (bound : Result StaffCreateRequest.t) (resp : handlers.Response),
    more.staff_unique db ->
    Forall more.hospital_consistent (staff_rows db) ->
    handlers.CreateStaffHandler db now bound = (resp, db') ->
    more.staff_unique db'
    /\ Forall more.hospital_consistent (staff_rows db').
Proof.
  intros H db db' now bound resp Hu Hcons Hr.
  destruct (N.eq_dec (handlers.status resp) handlers.StatusCreated)
    as [Hst|Hst].
  - destruct (CreateStaffHandler_created db db' now bound resp Hr Hst)
      as (req & hashed & id & row & Hb & Hh & Hid & Hc & Hbody).
    destruct (CreateStaff_effect _ _ _ _ _ Hc)
      as (_ & _ & _ & Hrows & Hn & _ & Hhid & Hhn & Hfresh).
    cbn in Hn, Hhid, Hhn. destruct Hu as [Hnames Hids]. split.
    + unfold more.staff_unique. rewrite Hrows. split.
      * apply NoDup_map_snoc; [exact Hnames|].
        intros y Hy. now apply Hfresh.
      * apply NoDup_map_snoc; [exact Hids|].
        intros y Hy. now apply Hfresh.
    + rewrite Hrows. apply Forall_app. split; [exact Hcons|].
      constructor; [|constructor].
      unfold more.hospital_consistent. now rewrite Hhn, Hhid.
  - destruct (CreateStaffHandler_refused db db' now bound resp Hr Hst)
      as [Hrows _].
    unfold more.staff_unique. rewrite Hrows. now split.
Qed.

(** The sample store is well formed, and stays so when Bob registers. *)
Lemma registration_keeps_the_staff_table_well_formed_witness :
  more.staff_unique
    (snd (handlers.CreateStaffHandler (H := sample.hasher)
            sample.db sample.t1
            (Ok (StaffCreateRequest.mk "bob" "pw456" "Hospital B")))).
Proof.
  apply (registration_keeps_the_staff_table_well_formed
           sample.hasher sample.db _ sample.t1
           (Ok (StaffCreateRequest.mk "bob" "pw456" "Hospital B"))
           (fst (handlers.CreateStaffHandler (H := sample.hasher)
                   sample.db sample.t1
                   (Ok (StaffCreateRequest.mk "bob" "pw456" "Hospital B"))))).
  - split; (constructor; [intros []|constructor]).
  - constructor; [reflexivity|constructor].
  - reflexivity.
Defined.

(** X11.  Registration then login.  On a reachable store, with a hasher
    whose hashes verify against the password they were made from, a user
    registered with a 201 response can log in at once with the same user
    name, password and hospital: [AuthenticateStaff] returns a token and the
    staff record, hash blanked. *)
Theorem registered_user_can_log_in :
  forall (P : JWTPrimitives) (H : PasswordHasher)
         (svc : services.AuthService) (db db' : DB)
         (now t t' : time.Time) (req : StaffCreateRequest.t)
         (resp : handlers.Response),
    read_fault db = None ->
    (forall h, HashPassword (StaffCreateRequest.Password req) = Ok h ->
               CheckPasswordHash (StaffCreateRequest.Password req) h = true) ->
    handlers.CreateStaffHandler db now (Ok req) = (resp, db') ->
    handlers.status resp = handlers.StatusCreated ->
    exists token staff,
      services.AuthenticateStaff
        svc db' t t'
        (StaffLoginRequest.mk (StaffCreateRequest.Username req)
                              (StaffCreateRequest.Password req)
                              (StaffCreateRequest.Hospital req))
      = Ok (token, staff)
      /\ Staff.Username staff = StaffCreateRequest.Username req
      /\ Staff.HospitalName staff = StaffCreateRequest.Hospital req
      /\ Staff.PasswordHash staff = "".
Proof.
  intros P H svc db db' now t t' req resp Hf Hhash Hr Hst.
  destruct (CreateStaffHandler_created db db' now (Ok req) resp Hr Hst)
    as (req' & hashed & id & row & Hb & Hh & Hid & Hc & _).
  injection Hb as <-.
  destruct (CreateStaff_effect _ _ _ _ _ Hc)
    as (_ & Hrf & _ & Hrows & Hn & Hph & Hhid & Hhn & Hfresh).
  cbn in Hn, Hph, Hhid, Hhn.
  assert (Hfind : database.FindStaffByUsername
                    db' (StaffCreateRequest.Username req) = Ok row).
  { rewrite <- Hn.
    apply (FindStaffByUsername_new_row db row Hf); [|exact Hrows|congruence].
    intros s Hs. now apply Hfresh. }
  destruct (ValidateToken_GenerateToken svc t t' row)
    as (tok & _ & Hgen & _).
  exists tok, (Staff.set_PasswordHash row "").
  split; [|now repeat split].
  unfold services.AuthenticateStaff.
  cbn [StaffLoginRequest.Username StaffLoginRequest.Hospital
       StaffLoginRequest.Password].
  rewrite Hfind, Hid, Hhid, N.eqb_refl, Hph, (Hhash hashed Hh), Hgen.
  reflexivity.
Qed.

(** Bob registers and logs in. *)
Lemma registered_user_can_log_in_witness :
  exists token staff,
    services.AuthenticateStaff (P := sample.primitives) (H := sample.hasher)
      sample.svc
      (snd (handlers.CreateStaffHandler (H := sample.hasher)
              sample.db sample.t1
              (Ok (StaffCreateRequest.mk "bob" "pw456" "Hospital B"))))
      sample.t1 sample.t1
      (StaffLoginRequest.mk "bob" "pw456" "Hospital B")
    = Ok (token, staff)
    /\ Staff.Username staff = "bob"
    /\ Staff.HospitalName staff = "Hospital B"
    /\ Staff.PasswordHash staff = "".
Proof.
  apply (registered_user_can_log_in
           sample.primitives sample.hasher sample.svc sample.db _
           sample.t1 sample.t1 sample.t1
           (StaffCreateRequest.mk "bob" "pw456" "Hospital B")
           (fst (handlers.CreateStaffHandler (H := sample.hasher)
                   sample.db sample.t1
                   (Ok (StaffCreateRequest.mk "bob" "pw456" "Hospital B"))))).
  - reflexivity.
  - intros h [= <-]. reflexivity.
  - reflexivity.
  - reflexivity.
Defined.

(** X12.  A user name that is already in the table cannot be registered
    again: on a reachable store the answer is 409 "Username already exists"
    and the store is left exactly as it was. *)
Theorem duplicate_username_is_a_conflict :
  forall (H : PasswordHasher) (db : DB) (now : time.Time)
         (req : StaffCreateRequest.t) (s : Staff.t),
    read_fault db = None ->
    In s (staff_rows db) ->
    Staff.Username s = StaffCreateRequest.Username req ->
    handlers.CreateStaffHandler db now (Ok req)
    = (handlers.mkResponse handlers.StatusConflict
         (handlers.H_error "Username already exists"), db).
Proof.
  intros H db now req s Hf Hin Hname.
  unfold handlers.CreateStaffHandler. rewrite <- Hname.
  destruct (FindStaffByUsername_present db s Hf Hin) as [s' ->].
  reflexivity.
Qed.

(** Alice again. *)
Lemma duplicate_username_is_a_conflict_witness :
  handlers.CreateStaffHandler (H := sample.hasher) sample.db sample.t1
    (Ok (StaffCreateRequest.mk "alice" "other" "Hospital B"))
  = (handlers.mkResponse handlers.StatusConflict
       (handlers.H_error "Username already exists"), sample.db).
Proof.
  apply (duplicate_username_is_a_conflict
           sample.hasher sample.db sample.t1
           (StaffCreateRequest.mk "alice" "other" "Hospital B")
           sample.alice eq_refl).
  - left. reflexivity.
  - reflexivity.
Defined.

(* ================================================================== *)
(** * Login *)

Section LoginFacts.
Context {P : JWTPrimitives}.

(** Signing with HS256 under a byte key cannot fail. *)
Lemma GenerateToken_total (svc : services.AuthService)
      (now now' : time.Time) (staff : Staff.t) :
  exists tok, services.GenerateToken svc now now' staff = Ok tok.
Proof.
  destruct (ValidateToken_GenerateToken svc now now' staff)
    as (tok & _ & Hgen & _).
  now exists tok.
Qed.

(** The resolver's error is its own, not the store's "record not found". *)
Lemma GetHospitalIDByName_error (name : string) (e : error) :
  database.GetHospitalIDByName name = Err e ->
  errors.Is e gorm_ErrRecordNotFound = false.
Proof.
  unfold database.GetHospitalIDByName.
  destruct (String.eqb name "Hospital A"); [discriminate|].
  destruct (String.eqb name "Hospital B"); [discriminate|].
  intros [= <-]. reflexivity.
Qed.

End LoginFacts.

(** X13.  Login succeeds exactly when the user is found, the hospital name
    resolves to the hospital of the staff record and the password verifies.
    The record returned is then the stored one with the hash blanked, and
    the token returned validates, at every time before its expires-at, to
    claims that carry the record's identity, user name and hospital. *)
Theorem login_succeeds_exactly_on_matching_credentials :
  forall (P : JWTPrimitives) (H : PasswordHasher)
         (svc : services.AuthService) (db : DB) (now now' : time.Time)
         (loginReq : StaffLoginRequest.t),
    (forall staff,
        database.FindStaffByUsername
          db (StaffLoginRequest.Username loginReq) = Ok staff ->
        database.GetHospitalIDByName (StaffLoginRequest.Hospital loginReq)
        = Ok (Staff.HospitalID staff) ->
        CheckPasswordHash (StaffLoginRequest.Password loginReq)
                          (Staff.PasswordHash staff) = true ->
        exists token claims,
          services.AuthenticateStaff svc db now now' loginReq
          = Ok (token, Staff.set_PasswordHash staff "")
          /\ Claims.UserID claims = Staff.ID staff
          /\ Claims.Username claims = Staff.Username staff
          /\ Claims.HospitalID claims = Staff.HospitalID staff
          /\ forall t, (t < spec.expires_at svc now)%Z ->
                       services.ValidateToken svc t token = Ok claims)
    /\
    (forall token returned,
        services.AuthenticateStaff svc db now now' loginReq
        = Ok (token, returned) ->
        exists staff,
          database.FindStaffByUsername
            db (StaffLoginRequest.Username loginReq) = Ok staff
          /\ database.GetHospitalIDByName
               (StaffLoginRequest.Hospital loginReq)
             = Ok (Staff.HospitalID staff)
          /\ CheckPasswordHash (StaffLoginRequest.Password loginReq)
                               (Staff.PasswordHash staff) = true
          /\ returned = Staff.set_PasswordHash staff "").
Proof.
  intros P H svc db now now' loginReq. split.
  - intros staff Hfind Hhosp Hpw.
    destruct (ValidateToken_GenerateToken svc now now' staff)
      as (tok & claims & Hgen & Hid & Hname & Hh & Hval).
    exists tok, claims. split; [|repeat (split; [assumption|])].
    + unfold services.AuthenticateStaff.
      now rewrite Hfind, Hhosp, N.eqb_refl, Hpw, Hgen.
    + intros t Ht. rewrite Hval. apply Z.ltb_lt in Ht. now rewrite Ht.
  - intros token returned Ha. unfold services.AuthenticateStaff in Ha.
    destruct (database.FindStaffByUsername _ _) as [s|e].
    2:{ destruct (errors.Is e _); discriminate. }
    destruct (database.GetHospitalIDByName _) as [id|e].
    2:{ destruct (errors.Is e _); discriminate. }
    destruct (N.eqb (Staff.HospitalID s) id) eqn:Heq;
      cbn [negb] in Ha; [|discriminate].
    apply N.eqb_eq in Heq. subst id.
    destruct (CheckPasswordHash _ _) eqn:Hpw;
      cbn [negb] in Ha; [|discriminate].
    destruct (services.GenerateToken _ _ _ _);
      cbn [bind] in Ha; [|discriminate].
    injection Ha as _ <-. exists s. now repeat split.
Qed.

(** Alice logs in at Hospital A. *)
Lemma login_succeeds_exactly_on_matching_credentials_witness :
  exists token claims,
    services.AuthenticateStaff (P := sample.primitives) (H := sample.hasher)
      sample.svc sample.db sample.t1 sample.t1
      (sample.login "alice" "pw123" "Hospital A")
    = Ok (token, Staff.set_PasswordHash sample.alice "")
    /\ Claims.HospitalID claims = 1%N
    /\ services.ValidateToken (P := sample.primitives)
         sample.svc sample.t1 token = Ok claims.
Proof.
  destruct (proj1 (login_succeeds_exactly_on_matching_credentials
                     sample.primitives sample.hasher sample.svc sample.db
                     sample.t1 sample.t1
                     (sample.login "alice" "pw123" "Hospital A"))
                  sample.alice eq_refl eq_refl eq_refl)
    as (tok & claims & Ha & _ & _ & Hh & Hval).
  exists tok, claims. split; [exact Ha|]. split; [exact Hh|].
  apply Hval. reflexivity.
Defined.

(** X14.  The errors of [AuthenticateStaff] are four: "invalid username or
    password", "error verifying hospital", "invalid hospital for this
    user", and the store's own failure wrapped as "database error during
    login".  In particular "invalid hospital specified" is never
    returned. *)
Theorem login_errors_are_four :
  forall (P : JWTPrimitives) (H : PasswordHasher)
         (svc : services.AuthService) (db : DB) (now now' : time.Time)
         (loginReq : StaffLoginRequest.t) (e : error),
    services.AuthenticateStaff svc db now now' loginReq = Err e ->
    (e = errorString "invalid username or password"
     \/ e = errorString "error verifying hospital"
     \/ e = errorString "invalid hospital for this user"
     \/ exists inner,
          read_fault db = Some inner
          /\ e = wrapError "database error during login" inner)
    /\ e <> errorString "invalid hospital specified".
Proof.
  intros P H svc db now now' loginReq e Ha.
  assert (Hcases :
    e = errorString "invalid username or password"
    \/ e = errorString "error verifying hospital"
    \/ e = errorString "invalid hospital for this user"
    \/ exists inner,
         read_fault db = Some inner
         /\ e = wrapError "database error during login" inner).
  { unfold services.AuthenticateStaff in Ha.
    destruct (database.FindStaffByUsername _ _) as [s|e0] eqn:Hfind.
    - destruct (database.GetHospitalIDByName _) as [id|e1] eqn:Hid.
      + destruct (negb (N.eqb _ _)); [injection Ha as <-; auto|].
        destruct (negb (CheckPasswordHash _ _)); [injection Ha as <-; auto|].
        destruct (GenerateToken_total svc now now' s) as [tok Hgen].
        rewrite Hgen in Ha. discriminate.
      + rewrite (GetHospitalIDByName_error _ _ Hid) in Ha.
        injection Ha as <-. auto.
    - destruct (errors.Is e0 _) eqn:His; injection Ha as <-; [auto|].
      right; right; right. exists e0. split; [|reflexivity].
      unfold database.FindStaffByUsername in Hfind.
      destruct (read_fault db) as [f|]; [now injection Hfind as ->|].
      destruct (filter _ _); [|discriminate].
      injection Hfind as <-. discriminate. }
  split; [exact Hcases|].
  destruct Hcases as [-> | [-> | [-> | (inner & _ & ->)]]]; discriminate.
Qed.

(** Alice at a hospital the resolver does not know. *)
Lemma login_errors_are_four_witness :
  errorString "error verifying hospital"
  <> errorString "invalid hospital specified".
Proof.
  apply (login_errors_are_four
           sample.primitives sample.hasher sample.svc sample.db
           sample.t1 sample.t1 (sample.login "alice" "pw123" "Hospital C")).
  reflexivity.
Defined.

(** X15.  A store failure during login reaches the client: when the lookup
    fails with an error other than "record not found", [LoginStaffHandler]
    answers 401 with the text "database error during login: " followed by
    the store's error text. *)
Theorem login_handler_reports_store_failure :
  forall (P : JWTPrimitives) (H : PasswordHasher)
         (svc : services.AuthService) (db : DB) (now now' : time.Time)
         (req : StaffLoginRequest.t) (e : error),
    read_fault db = Some e ->
    errors.Is e gorm_ErrRecordNotFound = false ->
    handlers.LoginStaffHandler svc db now now' (Ok req)
    = handlers.mkResponse handlers.StatusUnauthorized
        (handlers.H_error ("database error during login: " ++ Error e)).
Proof.
  intros P H svc db now now' req e Hf His.
  unfold handlers.LoginStaffHandler, services.AuthenticateStaff,
    database.FindStaffByUsername.
  rewrite Hf, His. reflexivity.
Qed.

(** The sample store with its connection lost. *)
Lemma login_handler_reports_store_failure_witness :
  handlers.LoginStaffHandler (P := sample.primitives) (H := sample.hasher)
    sample.svc more.broken_db sample.t1 sample.t1
    (Ok (sample.login "alice" "pw123" "Hospital A"))
  = handlers.mkResponse handlers.StatusUnauthorized
      (handlers.H_error
         "database error during login: connection refused").
Proof.
  apply (login_handler_reports_store_failure
           sample.primitives sample.hasher sample.svc more.broken_db
           sample.t1 sample.t1 (sample.login "alice" "pw123" "Hospital A")
           (errorString "connection refused"));
    reflexivity.
Defined.

(** X16.  [SearchPatientHandler] sends patients only with status 200, and
    does so exactly when the context holds claims, the query was bound and
    the store answered; when the store fails the client gets status 500
    with a fixed text, whatever the store's error. *)
Theorem search_handler_outcomes :
  forall (db : DB) (ctx : handlers.ContextValue)
         (bound : Result PatientSearchQuery.t),
    ((exists ps,
         handlers.body (handlers.SearchPatientHandler db ctx bound)
         = handlers.PatientsBody ps)
     <-> handlers.status (handlers.SearchPatientHandler db ctx bound)
         = handlers.StatusOK)
    /\ (handlers.status (handlers.SearchPatientHandler db ctx bound)
        = handlers.StatusOK
        <-> exists claims query,
              ctx = handlers.ClaimsValue claims
              /\ bound = Ok query /\ read_fault db = None)
    /\ (forall claims query e,
           ctx = handlers.ClaimsValue claims ->
           bound = Ok query ->
           read_fault db = Some e ->
           handlers.SearchPatientHandler db ctx bound
           = handlers.mkResponse handlers.StatusInternalServerError
               (handlers.H_error "Database error during patient search")).
Proof.
  intros db ctx bound. unfold handlers.SearchPatientHandler.
  destruct ctx as [|claims|]; [| |];
    try (split; [|split];
         [ split; [intros [ps Hps]; discriminate Hps | discriminate]
         | split; [discriminate | intros (c & q & Hc & _); discriminate Hc]
         | intros c q e Hc; discriminate Hc ]).
  destruct bound as [q|e0];
    try (split; [|split];
         [ split; [intros [ps Hps]; discriminate Hps | discriminate]
         | split; [discriminate
                  | intros (c & q & _ & Hb & _); discriminate Hb]
         | intros c q e _ Hb; discriminate Hb ]).
  unfold database.SearchPatients.
  destruct (read_fault db) as [f|] eqn:Hf.
  - split; [|split].
    + split; [intros [ps Hps]; discriminate Hps | discriminate].
    + split; [discriminate
             | intros (c & q' & _ & _ & Hn); discriminate Hn].
    + reflexivity.
  - split; [|split].
    + split; intros _; destruct (sql.select _ _);
        try reflexivity; eexists; reflexivity.
    + split; [intros _; exists claims, q; now repeat split|].
      intros _. destruct (sql.select _ _); reflexivity.
    + intros c q' e _ _ Hn. discriminate Hn.
Qed.

(** The store that fails, and the store that answers. *)
Lemma search_handler_outcomes_witness :
  handlers.SearchPatientHandler
    more.broken_db (handlers.ClaimsValue sample.mallory_claims)
    (Ok sample.no_criteria)
  = handlers.mkResponse handlers.StatusInternalServerError
      (handlers.H_error "Database error during patient search").
Proof.
  apply (proj2 (proj2 (search_handler_outcomes
                         more.broken_db
                         (handlers.ClaimsValue sample.mallory_claims)
                         (Ok sample.no_criteria)))
               sample.mallory_claims sample.no_criteria
               (errorString "connection refused"));
    reflexivity.
Defined.

(* ================================================================== *)
(** * Further properties of token validation *)

Section ValidationFacts.
Context {P : JWTPrimitives}.

Lemma Validate_passes (now : time.Time) (claims : Claims.t) :
  jwt.Validate now claims = None
  <-> match RegisteredClaims.ExpiresAt (Claims.Registered claims) with
      | Some exp => (now < jwt.Time_of exp)%Z
      | None => True
      end
      /\ match RegisteredClaims.NotBefore (Claims.Registered claims) with
         | Some nbf => (jwt.Time_of nbf <= now)%Z
         | None => True
         end.
Proof.
  unfold jwt.Validate, time.Before.
  destruct (RegisteredClaims.ExpiresAt _) as [exp|];
    destruct (RegisteredClaims.NotBefore _) as [nbf|];
    try destruct (Z.ltb_spec now (jwt.Time_of exp));
    try destruct (Z.ltb_spec now (jwt.Time_of nbf));
    cbn [negb]; split; try discriminate; try (intros [? ?]; lia);
    try (intros _; split; trivial; lia); try reflexivity.
Qed.

End ValidationFacts.

(** X17.  What [ValidateToken] accepts.  A token string is accepted, with
    claims [c], exactly when it decodes, its header names one of the HMAC
    methods (HS256, HS384, HS512), its signature is that method's keyed hash
    of the signing input under the configured key, [c] are its claims, the
    time is before the expiry if the claims have one, and not before the
    not-before time if they have one.  A token without expiry is accepted at
    every time. *)
Theorem validate_accepts_exactly_signed_unexpired_tokens :
  forall (P : JWTPrimitives) (svc : services.AuthService)
         (now : time.Time) (tok : jwt.TokenString) (c : Claims.t),
    services.ValidateToken svc now tok = Ok c
    <-> exists sstr a h,
          tok = jwt.Compact sstr (Some a) c
                            (hmac h (services.jwtKey svc) sstr)
          /\ jwt.GetSigningMethod a = Some (jwt.SigningMethodHMAC h)
          /\ match RegisteredClaims.ExpiresAt (Claims.Registered c) with
             | Some exp => (now < jwt.Time_of exp)%Z
             | None => True
             end
          /\ match RegisteredClaims.NotBefore (Claims.Registered c) with
             | Some nbf => (jwt.Time_of nbf <= now)%Z
             | None => True
             end.
Proof.
  intros P svc now tok c. split.
  - intros Hv. unfold services.ValidateToken, jwt.ParseWithClaims,
      jwt.ParseUnverified in Hv.
    destruct tok as [raw|sstr alg claims sig]; [discriminate|].
    destruct alg as [a|]; [|discriminate].
    destruct (jwt.GetSigningMethod a) as [m|] eqn:Hm; [|discriminate].
    cbn [bind jwt.Method jwt.Signature jwt.TokenClaims] in Hv.
    destruct m as [h| | | | |]; try discriminate.
    cbn [jwt.Verify] in Hv.
    destruct (String.eqb_spec sig (hmac h (services.jwtKey svc) sstr))
      as [->|]; [|discriminate].
    destruct (jwt.Validate now claims) as [err|] eqn:Hval.
    + destruct (errors.Is _ _); discriminate.
    + cbn [jwt.Valid negb jwt.TokenClaims] in Hv. injection Hv as <-.
      apply Validate_passes in Hval as [Hexp Hnbf].
      exists sstr, a, h. now repeat split.
  - intros (sstr & a & h & -> & Hm & Hexp & Hnbf).
    rewrite (ValidateToken_Compact_HMAC svc now sstr a h c Hm).
    now rewrite (proj2 (Validate_passes now c) (conj Hexp Hnbf)).
Qed.

(** A token signed with HS512 and without expiry, a day later. *)
Lemma validate_accepts_exactly_signed_unexpired_tokens_witness :
  services.ValidateToken (P := sample.primitives) sample.svc sample.t_late
    (jwt.Compact "HS512.alice" (Some "HS512") sample.mallory_claims
       (hmac (JWTPrimitives := sample.primitives) SHA512
             "a_very_secret_key" "HS512.alice"))
  = Ok sample.mallory_claims.
Proof.
  apply (proj2 (validate_accepts_exactly_signed_unexpired_tokens
                  sample.primitives sample.svc sample.t_late _
                  sample.mallory_claims)).
  exists "HS512.alice", "HS512", SHA512.
  split; [reflexivity|]. split; [reflexivity|]. split; exact I.
Defined.

(** X18.  With a configured expiry of zero or less, login still issues a
    token, but the token is already expired: validation at the issue time
    or at any later time fails with "token is expired". *)
Theorem non_positive_expiry_issues_dead_tokens :
  forall (P : JWTPrimitives) (svc : services.AuthService)
         (now now' : time.Time) (staff : Staff.t),
    (services.jwtExpiry svc <= 0)%Z ->
    exists tok,
      services.GenerateToken svc now now' staff = Ok tok
      /\ forall t, (now <= t)%Z ->
                   services.ValidateToken svc t tok
                   = Err (errorString "token is expired").
Proof.
  intros P svc now now' staff Hd.
  destruct (ValidateToken_GenerateToken svc now now' staff)
    as (tok & claims & Hgen & _ & _ & _ & Hval).
  exists tok. split; [exact Hgen|]. intros t Ht. rewrite Hval.
  pose proof (expires_at_bounds svc now) as Hb.
  assert (Hge : (t <? spec.expires_at svc now)%Z = false)
    by (apply Z.ltb_ge; lia).
  now rewrite Hge.
Qed.

(** A service configured with zero hours. *)
Lemma non_positive_expiry_issues_dead_tokens_witness :
  exists tok,
    services.GenerateToken (P := sample.primitives)
      (services.InitializeAuthService "k" 0%Z) sample.t1 sample.t1
      sample.alice = Ok tok
    /\ services.ValidateToken (P := sample.primitives)
         (services.InitializeAuthService "k" 0%Z) sample.t1 tok
       = Err (errorString "token is expired").
Proof.
  destruct (non_positive_expiry_issues_dead_tokens
              sample.primitives (services.InitializeAuthService "k" 0%Z)
              sample.t1 sample.t1 sample.alice)
    as (tok & Hgen & Hdead).
  - cbn. lia.
  - exists tok. split; [exact Hgen|]. apply Hdead. lia.
Defined.

(* ================================================================== *)
(** * The authorization gate *)

Section GateFacts.

Lemma Split_nonempty (s : string) (sep : ascii) : strings.Split s sep <> [].
Proof.
  destruct s as [|c s]; cbn [strings.Split]; [discriminate|].
  destruct (Ascii.eqb c sep); [discriminate|].
  destruct (strings.Split s sep); discriminate.
Qed.

(** [Split] returns one piece more than there are separators. *)
Lemma Split_length (s : string) (sep : ascii) :
  List.length (strings.Split s sep) = S (strings.Count s sep).
Proof.
  induction s as [|c s IH]; cbn [strings.Split strings.Count]; [reflexivity|].
  destruct (Ascii.eqb c sep); cbn [List.length Nat.add].
  - now rewrite IH.
  - destruct (strings.Split s sep) as [|p ps] eqn:Hs.
    + now apply Split_nonempty in Hs.
    + cbn [List.length] in IH |- *. exact IH.
Qed.

Lemma Split_no_sep (s : string) (sep : ascii) :
  strings.Count s sep = 0%nat -> strings.Split s sep = [s].
Proof.
  induction s as [|c s IH]; cbn [strings.Split strings.Count]; [reflexivity|].
  destruct (Ascii.eqb c sep); [discriminate|].
  cbn [Nat.add]. intros Hc. now rewrite (IH Hc).
Qed.

Lemma Split_join (a b : string) (sep : ascii) :
  strings.Count a sep = 0%nat ->
  strings.Count b sep = 0%nat ->
  strings.Split (a ++ String sep b) sep = [a; b].
Proof.
  intros Ha Hb. induction a as [|c a IH]; cbn [append strings.Split].
  - rewrite Ascii.eqb_refl. now rewrite (Split_no_sep b sep Hb).
  - cbn [strings.Count] in Ha.
    destruct (Ascii.eqb c sep); [discriminate|].
    cbn [Nat.add] in Ha. now rewrite (IH Ha).
Qed.

(** Two pieces come from one separator, between the pieces. *)
Lemma Split_two (s a b : string) (sep : ascii) :
  strings.Split s sep = [a; b] -> s = a ++ String sep b.
Proof.
  revert a. induction s as [|c s IH]; intros a; cbn [strings.Split].
  - discriminate.
  - destruct (Ascii.eqb_spec c sep) as [->|Hne].
    + intros [= <- Hs].
      assert (Hc : strings.Count s sep = 0%nat).
      { pose proof (Split_length s sep) as Hl. rewrite Hs in Hl.
        cbn in Hl. lia. }
      rewrite (Split_no_sep s sep Hc) in Hs. now injection Hs as ->.
    + destruct (strings.Split s sep) as [|p ps] eqn:Hs; [discriminate|].
      intros [= <- ->]. cbn [append]. now rewrite (IH p eq_refl).
Qed.

Lemma lower_space (c : ascii) :
  Ascii.eqb (strings.lower c) " " = Ascii.eqb c " ".
Proof.
  destruct c as [[] [] [] [] [] [] [] []]; reflexivity.
Qed.

(** Lowering the letters neither adds nor removes a space. *)
Lemma Count_ToLower_space (s : string) :
  strings.Count (strings.ToLower s) " " = strings.Count s " ".
Proof.
  induction s as [|c s IH]; [reflexivity|].
  cbn [strings.ToLower strings.Count]. now rewrite lower_space, IH.
Qed.

(** The rows of a successful search are of the hospital asked for. *)
Lemma SearchPatients_in_tenant (db : DB) (query : PatientSearchQuery.t)
      (T : N) (patients : list Patient.t) :
  database.SearchPatients db query T = Ok patients ->
  Forall (fun p => Patient.HospitalID p = T) patients.
Proof.
  intros Hs. unfold database.SearchPatients in Hs.
  destruct (read_fault db); [discriminate|].
  injection Hs as <-. apply Forall_forall. intros p Hin.
  unfold sql.select in Hin. apply filter_In in Hin as [_ Hq].
  rewrite SearchPatients_query_holds in Hq.
  apply andb_true_iff in Hq as [Hh _]. now apply N.eqb_eq.
Qed.

End GateFacts.

(** X19.  [AuthRequired] asks for exactly one space in the header: a
    header that is present but has no space ("Bearer"), or more than one
    (a doubled space, a token with a space in it), is refused with 401
    "Invalid authorization header format" and the token is not looked at. *)
Theorem gate_refuses_headers_without_exactly_one_space :
  forall (P : JWTPrimitives) (D : TokenDecoder)
         (svc : services.AuthService) (now : time.Time)
         (authHeader : string),
    authHeader <> "" ->
    strings.Count authHeader " " <> 1%nat ->
    middleware.AuthRequired svc now authHeader
    = middleware.Abort
        (handlers.mkResponse handlers.StatusUnauthorized
           (handlers.H_error "Invalid authorization header format")).
Proof.
  intros P D svc now authHeader Hne Hcount.
  unfold middleware.AuthRequired.
  apply String.eqb_neq in Hne. rewrite Hne.
  pose proof (Split_length authHeader " ") as Hl.
  destruct (strings.Split authHeader " ") as [|a [|b [|c l]]];
    try reflexivity.
  cbn in Hl. lia.
Qed.

(** A doubled space after the scheme. *)
Lemma gate_refuses_headers_without_exactly_one_space_witness :
  middleware.AuthRequired (P := sample.primitives) (D := more.alice_decoder)
    sample.svc sample.t1 "Bearer  alice.token"
  = middleware.Abort
      (handlers.mkResponse handlers.StatusUnauthorized
         (handlers.H_error "Invalid authorization header format")).
Proof.
  apply (gate_refuses_headers_without_exactly_one_space
           sample.primitives more.alice_decoder sample.svc sample.t1
           "Bearer  alice.token");
    discriminate.
Defined.

(** A well-formed bearer header passes the gate as the token fares. *)
Lemma gate_open {P : JWTPrimitives} {D : TokenDecoder}
      (svc : services.AuthService) (now : time.Time)
      (scheme tokenText : string) :
    strings.ToLower scheme = "bearer" ->
    strings.Count tokenText " " = 0%nat ->
    middleware.AuthRequired svc now (scheme ++ " " ++ tokenText)
    = match services.ValidateToken svc now (decode tokenText) with
      | Ok claims => middleware.Next (handlers.ClaimsValue claims)
      | Err err =>
          middleware.Abort
            (handlers.mkResponse handlers.StatusUnauthorized
               (handlers.H_error (Error err)))
      end.
Proof.
  intros Hscheme Htok.
  assert (Hsch : strings.Count scheme " " = 0%nat).
  { rewrite <- (Count_ToLower_space scheme), Hscheme. reflexivity. }
  unfold middleware.AuthRequired.
  change (scheme ++ " " ++ tokenText)
    with (scheme ++ String " " tokenText).
  rewrite (Split_join scheme tokenText " " Hsch Htok).
  assert (Hne : String.eqb (scheme ++ String " " tokenText) "" = false).
  { destruct scheme; reflexivity. }
  rewrite Hne, Hscheme. reflexivity.
Qed.

(** X20.  For a header made of a scheme that reads "bearer" in any letter
    case, one space and a token text without spaces, [AuthRequired] does
    what [ValidateToken] says of the token: the claims go into the context
    when it accepts, and when it rejects the request is aborted with 401
    and the text of its error. *)
Theorem gate_follows_token_validation :
  forall (P : JWTPrimitives) (D : TokenDecoder)
         (svc : services.AuthService) (now : time.Time)
         (scheme tokenText : string),
    strings.ToLower scheme = "bearer" ->
    strings.Count tokenText " " = 0%nat ->
    middleware.AuthRequired svc now (scheme ++ " " ++ tokenText)
    = match services.ValidateToken svc now (decode tokenText) with
      | Ok claims => middleware.Next (handlers.ClaimsValue claims)
      | Err err =>
          middleware.Abort
            (handlers.mkResponse handlers.StatusUnauthorized
               (handlers.H_error (Error err)))
      end.
Proof.
  intros P D svc now scheme tokenText. apply gate_open.
Qed.

(** Alice's token under an upper-case scheme. *)
Lemma gate_follows_token_validation_witness :
  exists claims,
    middleware.AuthRequired (P := sample.primitives)
      (D := more.alice_decoder) sample.svc sample.t1 "BEARER alice.token"
    = middleware.Next (handlers.ClaimsValue claims)
    /\ Claims.Username claims = "alice".
Proof.
  eexists. split.
  - change "BEARER alice.token" with ("BEARER" ++ " " ++ "alice.token").
    rewrite (gate_follows_token_validation
               sample.primitives more.alice_decoder sample.svc sample.t1
               "BEARER" "alice.token" eq_refl eq_refl).
    reflexivity.
  - reflexivity.
Defined.

(** X21.  No patient data without a valid token.  Whenever the search route
    (the gate, then [SearchPatientHandler]) sends back a list of patients,
    the header had the form scheme, space, token text with the scheme
    reading "bearer", [ValidateToken] accepted the token at that time, and
    every patient sent belongs to the hospital named in the token's
    claims. *)
Theorem patient_data_requires_a_valid_token :
  forall (P : JWTPrimitives) (D : TokenDecoder)
         (svc : services.AuthService) (db : DB) (now : time.Time)
         (authHeader : string) (bound : Result PatientSearchQuery.t)
         (code : N) (patients : list Patient.t),
    api.patient_search svc db now authHeader bound
    = handlers.mkResponse code (handlers.PatientsBody patients) ->
    exists scheme tokenText claims,
      authHeader = scheme ++ " " ++ tokenText
      /\ strings.ToLower scheme = "bearer"
      /\ services.ValidateToken svc now (decode tokenText) = Ok claims
      /\ Forall (fun p => Patient.HospitalID p = Claims.HospitalID claims)
                patients.
Proof.
  intros P D svc db now authHeader bound code patients Hr.
  unfold api.patient_search, middleware.AuthRequired in Hr.
  destruct (String.eqb authHeader ""); [discriminate|].
  destruct (strings.Split authHeader " ") as [|scheme [|tokenText [|x l]]]
    eqn:Hsplit; try discriminate.
  destruct (String.eqb_spec (strings.ToLower scheme) "bearer")
    as [Hscheme|]; cbn [negb] in Hr; [|discriminate].
  destruct (services.ValidateToken svc now (decode tokenText))
    as [claims|e] eqn:Hval; [|discriminate].
  exists scheme, tokenText, claims.
  split; [exact (Split_two _ _ _ _ Hsplit)|].
  split; [exact Hscheme|]. split; [exact Hval|].
  unfold handlers.SearchPatientHandler in Hr.
  destruct bound as [q|e]; [|discriminate].
  destruct (database.SearchPatients db q (Claims.HospitalID claims))
    as [ps|e] eqn:Hs; [|discriminate].
  apply SearchPatients_in_tenant in Hs.
  destruct ps; injection Hr as _ <-; [constructor | exact Hs].
Qed.

(** Alice's request for everything. *)
Lemma patient_data_requires_a_valid_token_witness :
  exists scheme tokenText claims,
    "Bearer alice.token" = scheme ++ " " ++ tokenText
    /\ strings.ToLower scheme = "bearer"
    /\ services.ValidateToken (P := sample.primitives) sample.svc sample.t1
         (decode (TokenDecoder := more.alice_decoder) tokenText) = Ok claims
    /\ Forall (fun p => Patient.HospitalID p = Claims.HospitalID claims)
              [sample.patientA].
Proof.
  apply (patient_data_requires_a_valid_token
           sample.primitives more.alice_decoder sample.svc sample.db
           sample.t1 "Bearer alice.token" (Ok sample.no_criteria)
           handlers.StatusOK [sample.patientA]).
  reflexivity.
Defined.

(** X22.  A whole session.  If login succeeded for a staff member, the
    store answers, and the client sends the token back (as a text without
    spaces after "Bearer ") before it expires, the search route answers 200
    with exactly the rows of that staff member's hospital that meet the
    criteria. *)
Theorem login_then_search_is_scoped_to_the_staff_hospital :
  forall (P : JWTPrimitives) (H : PasswordHasher) (D : TokenDecoder)
         (svc : services.AuthService) (db : DB) (now now' t : time.Time)
         (loginReq : StaffLoginRequest.t) (token : jwt.TokenString)
         (staff : Staff.t) (tokenText : string)
         (query : PatientSearchQuery.t),
    services.AuthenticateStaff svc db now now' loginReq
    = Ok (token, staff) ->
    decode tokenText = token ->
    strings.Count tokenText " " = 0%nat ->
    (t < spec.expires_at svc now)%Z ->
    api.patient_search svc db t ("Bearer " ++ tokenText) (Ok query)
    = handlers.mkResponse handlers.StatusOK
        (handlers.PatientsBody
           (filter (fun p => N.eqb (Patient.HospitalID p)
                                   (Staff.HospitalID staff)
                             && spec.matches spec.like_anywhere query p)
                   (patient_rows db))).
Proof.
  intros P H D svc db now now' t loginReq token staff tokenText query
         Ha Hdec Hsp Ht.
  unfold services.AuthenticateStaff in Ha.
  destruct (database.FindStaffByUsername _ _) as [s|e] eqn:Hfind.
  2:{ destruct (errors.Is e _); discriminate. }
  destruct (database.GetHospitalIDByName _) as [id|e].
  2:{ destruct (errors.Is e _); discriminate. }
  destruct (negb (N.eqb _ _)); [discriminate|].
  destruct (negb (CheckPasswordHash _ _)); [discriminate|].
  destruct (ValidateToken_GenerateToken svc now now' s)
    as (tok & claims & Hgen & _ & _ & Hhosp & Hval).
  rewrite Hgen in Ha. cbn [bind] in Ha. injection Ha as <- <-.
  assert (Hf : read_fault db = None).
  { unfold database.FindStaffByUsername in Hfind.
    destruct (read_fault db); [discriminate | reflexivity]. }
  unfold api.patient_search.
  change ("Bearer " ++ tokenText) with ("Bearer" ++ " " ++ tokenText).
  rewrite (gate_open svc t "Bearer" tokenText eq_refl Hsp).
  rewrite Hdec, Hval. apply Z.ltb_lt in Ht. rewrite Ht.
  unfold handlers.SearchPatientHandler.
  rewrite (SearchPatients_filter db query _ Hf), Hhosp.
  cbn [Staff.HospitalID Staff.set_PasswordHash].
  destruct (filter _ _); reflexivity.
Qed.

(** Alice logs in and searches the Thai first names with one character
    left open. *)
Lemma login_then_search_is_scoped_to_the_staff_hospital_witness :
  api.patient_search (P := sample.primitives) (D := more.alice_decoder)
    sample.svc more.thai_db sample.t1 "Bearer alice.token"
    (Ok more.thai_wildcard)
  = handlers.mkResponse handlers.StatusOK
      (handlers.PatientsBody [more.patientT]).
Proof.
  change "Bearer alice.token" with ("Bearer " ++ "alice.token").
  rewrite (login_then_search_is_scoped_to_the_staff_hospital
             sample.primitives sample.hasher more.alice_decoder
             sample.svc more.thai_db sample.t1 sample.t1 sample.t1
             (sample.login "alice" "pw123" "Hospital A")
             more.alice_token (Staff.set_PasswordHash sample.alice "")
             "alice.token" more.thai_wildcard
             eq_refl eq_refl eq_refl eq_refl).
  reflexivity.
Defined.

(* ================================================================== *)
(** * Configuration *)

Section ConfigFacts.

Lemma digits_junk (acc : Z) (a : string) (c : ascii) (b : string) :
  time.isDigit c = false ->
  strconv.digits acc (a ++ String c b) = None.
Proof.
  intros Hc. revert acc.
  induction a as [|x a IH]; intros acc; cbn [append strconv.digits].
  - now rewrite Hc.
  - destruct (time.isDigit x); [apply IH | reflexivity].
Qed.

Lemma mul_int64_exact (a b : Z) :
  (- 2 ^ 63 <= a * b < 2 ^ 63)%Z -> config.mul_int64 a b = (a * b)%Z.
Proof.
  intros Hr. unfold config.mul_int64.
  rewrite Z.mod_small by lia. lia.
Qed.

End ConfigFacts.

(** X23.  When JWT_EXPIRY_HOURS holds an integer of at most 2562047 hours in
    absolute value, [Load] succeeds and the service initialised from the
    configuration has exactly that many hours as its expiry (no
    wrap-around), with the secret taken from JWT_SECRET or its default. *)
Theorem configured_expiry_is_exact_within_range :
  forall (env : config.Env) (s : string) (n : Z),
    env "JWT_EXPIRY_HOURS" = Some s ->
    strconv.Atoi s = Ok n ->
    (- 2562047 <= n <= 2562047)%Z ->
    exists cfg,
      config.Load env = Ok cfg
      /\ services.jwtExpiry (config.AuthService_of cfg) = (n * time.Hour)%Z
      /\ services.jwtKey (config.AuthService_of cfg)
         = config.getEnv env "JWT_SECRET" "a_very_secret_key".
Proof.
  intros env s n Hs Ha Hr. eexists. split; [reflexivity|].
  split; [|reflexivity].
  cbn [config.AuthService_of services.InitializeAuthService
       services.jwtExpiry config.JWTExpiry].
  unfold config.getEnv. rewrite Hs, Ha.
  rewrite mul_int64_exact; unfold time.Hour, time.Second; lia.
Qed.

(** Seventy-two hours, as in the README. *)
Lemma configured_expiry_is_exact_within_range_witness :
  exists cfg,
    config.Load more.env72 = Ok cfg
    /\ services.jwtExpiry (config.AuthService_of cfg)
       = (72 * time.Hour)%Z
    /\ services.jwtKey (config.AuthService_of cfg) = "a_very_secret_key".
Proof.
  apply (configured_expiry_is_exact_within_range more.env72 "72" 72%Z);
    try reflexivity.
  lia.
Defined.

(** X24.  [Load] never fails on a bad JWT_EXPIRY_HOURS: when the variable
    is unset, empty, or has a character that is not a digit anywhere after
    its first character ("72h", "1.5", "7 2"), the expiry is 24 hours. *)
Theorem unusable_expiry_falls_back_to_a_day :
  forall (env : config.Env),
    (env "JWT_EXPIRY_HOURS" = None
     \/ env "JWT_EXPIRY_HOURS" = Some ""
     \/ exists c0 a c b,
          env "JWT_EXPIRY_HOURS" = Some (String c0 (a ++ String c b))
          /\ time.isDigit c = false) ->
    exists cfg,
      config.Load env = Ok cfg
      /\ config.JWTExpiry cfg = (24 * time.Hour)%Z.
Proof.
  intros env Hcases. eexists. split; [reflexivity|].
  cbn [config.JWTExpiry]. unfold config.getEnv.
  destruct Hcases as [-> | [-> | (c0 & a & c & b & -> & Hc)]];
    try reflexivity.
  assert (Hatoi : exists e,
            strconv.Atoi (String c0 (a ++ String c b)) = Err e).
  { unfold strconv.Atoi.
    destruct (Ascii.eqb c0 "-"); [|destruct (Ascii.eqb c0 "+")].
    - rewrite (digits_junk 0 a c b Hc).
      destruct (a ++ String c b); eexists; reflexivity.
    - rewrite (digits_junk 0 a c b Hc).
      destruct (a ++ String c b); eexists; reflexivity.
    - change (String c0 (a ++ String c b))
        with (String c0 a ++ String c b).
      rewrite (digits_junk 0 (String c0 a) c b Hc).
      eexists; reflexivity. }
  destruct Hatoi as [e ->]. reflexivity.
Qed.

(** "72h" is not a number of hours. *)
Lemma unusable_expiry_falls_back_to_a_day_witness :
  exists cfg,
    config.Load (fun key => if String.eqb key "JWT_EXPIRY_HOURS"
                            then Some "72h" else None) = Ok cfg
    /\ config.JWTExpiry cfg = (24 * time.Hour)%Z.
Proof.
  apply unusable_expiry_falls_back_to_a_day.
  right; right. exists "7"%char, "2", "h"%char, "".
  split; reflexivity.
Defined.

(* ================================================================== *)
(** * Patients *)

(** X25.  [CreatePatient] refuses a hospital-local record number that any
    stored patient already carries, in whichever hospital, and leaves the
    store as it was. *)
Theorem patient_record_number_is_unique_across_hospitals :
  forall (db : DB) (seq : N) (patient other : Patient.t),
    write_fault db = None ->
    In other (patient_rows db) ->
    Patient.PatientHN other = Patient.PatientHN patient ->
    exists e seq',
      patients.CreatePatient db seq patient = (Err e, db, seq').
Proof.
  intros db seq patient other Hw Hin Hhn.
  unfold patients.CreatePatient. rewrite Hw.
  assert (Hex : existsb
            (fun p => N.eqb (Patient.ID p)
                        (if N.eqb (Patient.ID patient) 0
                         then N.succ seq else Patient.ID patient)
                      || String.eqb (Patient.PatientHN p)
                                    (Patient.PatientHN patient))
            (patient_rows db) = true).
  { apply existsb_exists. exists other. split; [exact Hin|].
    rewrite Hhn, String.eqb_refl. apply orb_true_r. }
  rewrite Hex. eexists. eexists. reflexivity.
Qed.

(** The record number of a patient of hospital 1, offered for hospital 2. *)
Lemma patient_record_number_is_unique_across_hospitals_witness :
  exists e seq',
    patients.CreatePatient sample.db 2 more.patientD
    = (Err e, sample.db, seq').
Proof.
  apply (patient_record_number_is_unique_across_hospitals
           sample.db 2%N more.patientD sample.patientA eq_refl).
  - left. reflexivity.
  - reflexivity.
Defined.

(** X26.  A patient stored by [CreatePatient] is found by the unfiltered
    search of its own hospital and by no search of another hospital. *)
Theorem created_patient_is_visible_to_its_hospital_only :
  forall (db db' : DB) (seq seq' : N) (patient row : Patient.t),
    read_fault db = None ->
    patients.CreatePatient db seq patient = (Ok row, db', seq') ->
    (exists ps,
        database.SearchPatients db' sample.no_criteria
                                (Patient.HospitalID patient) = Ok ps
        /\ In row ps)
    /\ forall query T ps,
         T <> Patient.HospitalID patient ->
         database.SearchPatients db' query T = Ok ps ->
         ~ In row ps.
Proof.
  intros db db' seq seq' patient row Hf Hc.
  unfold patients.CreatePatient in Hc.
  destruct (write_fault db); [discriminate|].
  destruct (existsb _ _); [discriminate|].
  injection Hc as <- <- _. split.
  - eexists. split.
    + apply SearchPatients_filter. exact Hf.
    + cbn [patient_rows]. apply filter_In. split.
      * apply in_or_app. right. now left.
      * cbn. now rewrite N.eqb_refl.
  - intros query T ps HT Hs Hin.
    apply SearchPatients_in_tenant in Hs.
    rewrite Forall_forall in Hs. specialize (Hs _ Hin).
    cbn in Hs. congruence.
Qed.

(** Carol is stored for hospital 1 and found there. *)
Lemma created_patient_is_visible_to_its_hospital_only_witness :
  exists row ps,
    fst (fst (patients.CreatePatient sample.db 2 more.patientC)) = Ok row
    /\ database.SearchPatients
         (snd (fst (patients.CreatePatient sample.db 2 more.patientC)))
         sample.no_criteria 1 = Ok ps
    /\ In row ps.
Proof.
  eexists. 
  destruct (proj1 (created_patient_is_visible_to_its_hospital_only
                     sample.db _ 2%N _ more.patientC _ eq_refl eq_refl))
    as (ps & Hs & Hin).
  exists ps. split; [reflexivity|]. split; [exact Hs | exact Hin].
Defined.
